(** * Confluence MCP server: the tool registry, the remote client and the
      dispatcher of [src/index.ts], embedded and checked against the
      specification's claims.

    The program is a thin adapter: three tools, each of which coerces its
    arguments with JavaScript's [String]/[Number], issues one or two HTTP
    calls through axios, and wraps whatever came back in a text envelope.
    Everything the claims speak about therefore sits in three places:
    - the coercions of the JavaScript runtime ([String(x)], [Number(x)],
      truthiness, [??], [||], [+], property access, [JSON.stringify]),
      with the TypeErrors they throw;
    - the control flow around the awaited HTTP calls ([try]/[catch],
      [throw]);
    - the [switch] of the call handler.
    They are modelled in that order. *)

From Stdlib Require Import List String Ascii Bool ZArith NArith Lia Floats.
From Stdlib Require Import DecimalString DecimalPos.
Import ListNotations.
Local Open Scope string_scope.
Set Warnings "-register-all".

(** ** JavaScript values *)

Module JS.

(** The values a tool can receive and a remote can answer: what [JSON.parse]
    produces, plus [undefined] (the result of reading a property that is not
    there).  Numbers are IEEE binary64, as in the language.  An object keeps
    its properties in enumeration order. *)
Inductive value : Type :=
| JUndefined
| JNull
| JBool (b : bool)
| JNum (x : float)
| JStr (s : string)
| JArr (elems : list value)
| JObj (props : list (string * value)).

(** Own-property lookup in an object literal. *)
Fixpoint lookup (k : string) (props : list (string * value)) : option value :=
  match props with
  | [] => None
  | (k', v) :: rest => if String.eqb k k' then Some v else lookup k rest
  end.

(** [{...o, k: v}]: an existing key keeps its place and takes the new value,
    a new key goes last. *)
Fixpoint obj_set {A : Type} (k : string) (v : A) (props : list (string * A))
  : list (string * A) :=
  match props with
  | [] => [(k, v)]
  | (k', v') :: rest =>
      if String.eqb k k' then (k, v) :: rest else (k', v') :: obj_set k v rest
  end.

(** [a.join(sep)] on strings already rendered. *)
Fixpoint join (sep : string) (parts : list string) : string :=
  match parts with
  | [] => ""
  | [p] => p
  | p :: rest => p ++ sep ++ join sep rest
  end.

(** A list of conversions, each of which may throw: the results in order,
    or [None] as soon as one throws. *)
Definition traverse {A B : Type} (f : A -> option B)
  : list A -> option (list B) :=
  fix go (l : list A) : option (list B) :=
    match l with
    | [] => Some []
    | a :: rest =>
        match f a, go rest with
        | Some b, Some bs => Some (b :: bs)
        | _, _ => None
        end
    end.

Definition is_nullish (v : value) : bool :=
  match v with
  | JUndefined | JNull => true
  | _ => false
  end.

(** [a ?? b] *)
Definition nullish_or (a b : value) : value :=
  if is_nullish a then b else a.

(** ToBoolean. *)
Definition truthy (v : value) : bool :=
  match v with
  | JUndefined | JNull => false
  | JBool b => b
  | JNum x => negb (PrimFloat.eqb x 0 || PrimFloat.is_nan x)
  | JStr s => negb (String.eqb s "")
  | JArr _ | JObj _ => true
  end.

(** [a || b] *)
Definition or_else (a b : value) : value :=
  if truthy a then a else b.

Section Conversions.

(** The two conversions between numbers and their decimal text are the
    engine's (Number::toString and StringToNumber of ECMA-262).  Nothing
    below depends on the digits they produce, so they stay parameters. *)
Variable NumberToString : float -> string.
Variable StringToNumber : string -> float.

(** [String(v)], and the conversion inside a template literal; [None]
    when it throws a TypeError.  An array renders as its elements joined by
    commas, with [null] and [undefined] elements rendered empty.  An object
    goes through its [toString] property: a parsed object inherits
    [Object.prototype.toString], which answers "[object Object]", unless the
    object has a [toString] property of its own; such a property holds a
    parsed value, never a function, so it is passed over, [valueOf] gives
    back the object itself, and the conversion throws. *)
Fixpoint ToString (v : value) : option string :=
  match v with
  | JUndefined => Some "undefined"
  | JNull => Some "null"
  | JBool true => Some "true"
  | JBool false => Some "false"
  | JNum x => Some (NumberToString x)
  | JStr s => Some s
  | JArr elems =>
      option_map (join ",")
        (traverse (fun e => if is_nullish e then Some "" else ToString e)
           elems)
  | JObj props =>
      match lookup "toString" props with
      | Some _ => None
      | None => Some "[object Object]"
      end
  end.

(** ToPrimitive, with the number hint or none, on values that come from
    JSON: [valueOf] never gives a primitive for an array or an object, so
    they go to their string, and throw where that throws. *)
Definition ToPrimitive (v : value) : option value :=
  match v with
  | JArr _ | JObj _ => option_map JStr (ToString v)
  | _ => Some v
  end.

(** ToNumber of a primitive. *)
Definition number_of (p : value) : float :=
  match p with
  | JUndefined => nan
  | JNull => 0
  | JBool true => 1
  | JBool false => 0
  | JNum x => x
  | JStr s => StringToNumber s
  | JArr _ | JObj _ => nan
  end.

(** [Number(v)]; [None] when it throws. *)
Definition ToNumber (v : value) : option float :=
  option_map number_of (ToPrimitive v).

(** ToString of a primitive. *)
Definition text_of (p : value) : string :=
  match ToString p with
  | Some s => s
  | None => ""
  end.

(** [a + b]: both sides are made primitive, left first; concatenation as
    soon as one of them is a string, numeric addition otherwise.  [None]
    when making a side primitive throws. *)
Definition plus (a b : value) : option value :=
  match ToPrimitive a with
  | None => None
  | Some pa =>
      match ToPrimitive b with
      | None => None
      | Some pb =>
          Some match pa, pb with
               | JStr _, _ | _, JStr _ => JStr (text_of pa ++ text_of pb)
               | _, _ => JNum (number_of pa + number_of pb)
               end
      end
  end.

(** *** JSON.stringify(v, null, 2) *)

Definition hex_digit (n : N) : ascii :=
  match n with
  | 0 => "0" | 1 => "1" | 2 => "2" | 3 => "3" | 4 => "4" | 5 => "5"
  | 6 => "6" | 7 => "7" | 8 => "8" | 9 => "9" | 10 => "a" | 11 => "b"
  | 12 => "c" | 13 => "d" | 14 => "e" | _ => "f"
  end%N%char.

(** QuoteJSONString, one code unit at a time: the two-character escapes,
    [\u00xx] for the other control characters, everything else as is. *)
Definition escape_char (c : ascii) : string :=
  let n := N_of_ascii c in
  if N.eqb n 34 then "\" ++ String c ""
  else if N.eqb n 92 then "\\"
  else if N.eqb n 8 then "\b"
  else if N.eqb n 9 then "\t"
  else if N.eqb n 10 then "\n"
  else if N.eqb n 12 then "\f"
  else if N.eqb n 13 then "\r"
  else if N.ltb n 32 then
    "\u00" ++ String (hex_digit (n / 16)) (String (hex_digit (n mod 16)) "")
  else String c "".

Fixpoint escape (s : string) : string :=
  match s with
  | EmptyString => ""
  | String c rest => escape_char c ++ escape rest
  end.

Definition dquote : string := String (ascii_of_N 34) "".
Definition newline : string := String (ascii_of_N 10) "".

Definition quote (s : string) : string := dquote ++ escape s ++ dquote.

Definition is_finite (x : float) : bool :=
  negb (PrimFloat.is_nan x || PrimFloat.is_infinity x).

(** SerializeJSONProperty at indentation [ind] with gap two spaces.  [None]
    is JavaScript's [undefined]: the value has no JSON text.  Inside an
    array such an element prints as [null]; inside an object the property
    is left out. *)
Fixpoint serialize (ind : string) (v : value) : option string :=
  let inner := ind ++ "  " in
  match v with
  | JUndefined => None
  | JNull => Some "null"
  | JBool true => Some "true"
  | JBool false => Some "false"
  | JNum x => Some (if is_finite x then NumberToString x else "null")
  | JStr s => Some (quote s)
  | JArr elems =>
      match elems with
      | [] => Some "[]"
      | _ =>
          let items :=
            map (fun e => inner ++ match serialize inner e with
                                   | Some t => t
                                   | None => "null"
                                   end) elems in
          Some ("[" ++ newline ++ join ("," ++ newline) items
                    ++ newline ++ ind ++ "]")
      end
  | JObj props =>
      let items :=
        flat_map (fun kv => match kv with
                            | (k, e) =>
                                match serialize inner e with
                                | Some t => [inner ++ quote k ++ ": " ++ t]
                                | None => []
                                end
                            end) props in
      match items with
      | [] => Some "{}"
      | _ => Some ("{" ++ newline ++ join ("," ++ newline) items
                       ++ newline ++ ind ++ "}")
      end
  end.

Definition JSON_stringify (v : value) : option string := serialize "" v.

End Conversions.

End JS.

(** ** Exceptions, HTTP and awaited calls *)

Module Http.
Import JS.

Record AxiosResponse : Type := { status : Z; data : value }.

(** What can be thrown in this program: [new Error(m)] by the handler, a
    TypeError by a property read on [null]/[undefined], and axios's error,
    which carries [response] when the server answered and only [message]
    when it did not. *)
Inductive exn : Type :=
| Error (message : string)
| TypeError (message : string)
| AxiosError (response : option AxiosResponse) (message : string).

Inductive method : Type := GET | PUT.

Record HttpRequest : Type := {
  verb : method;
  url : string;
  headers : list (string * string);
  params : option (list (string * value));
  body : option value
}.

(** What the remote side does with a request, as axios sees it. *)
Inductive reply : Type :=
| HttpReply (status : Z) (data : value)
| NetworkError (message : string).

(** An asynchronous computation: it returns, throws, or awaits one HTTP
    exchange and goes on with the reply. *)
Inductive prog (A : Type) : Type :=
| Ret (a : A)
| Throw (e : exn)
| Await (r : HttpRequest) (k : reply -> prog A).
Arguments Ret {A} a.
Arguments Throw {A} e.
Arguments Await {A} r k.

Fixpoint bind {A B : Type} (p : prog A) (f : A -> prog B) : prog B :=
  match p with
  | Ret a => f a
  | Throw e => Throw e
  | Await r k => Await r (fun rep => bind (k rep) f)
  end.

(** [try { p } catch (error) { h error }] *)
Fixpoint try_catch {A : Type} (p : prog A) (h : exn -> prog A) : prog A :=
  match p with
  | Ret a => Ret a
  | Throw e => h e
  | Await r k => Await r (fun rep => try_catch (k rep) h)
  end.

(** A synchronous step that may throw. *)
Definition lift {A : Type} (r : exn + A) : prog A :=
  match r with
  | inl e => Throw e
  | inr a => Ret a
  end.

(** The TypeError of a conversion to a primitive that finds none (the
    message is V8's). *)
Definition conversion_error : exn :=
  TypeError "Cannot convert object to primitive value".

(** A conversion that throws where it has no result. *)
Definition convert {A : Type} (r : option A) : prog A :=
  match r with
  | Some a => Ret a
  | None => Throw conversion_error
  end.

Declare Scope prog_scope.
Delimit Scope prog_scope with prog.
Notation "x <- p ;; q" := (bind p (fun x => q))
  (at level 61, p at next level, right associativity) : prog_scope.

(** [v.k].  Reading a property of [null] or [undefined] throws (the message
    is V8's); a primitive or an array has none of the properties this
    program reads ([error], [type], [title], [space], [version], [number]). *)
Definition get_prop (v : value) (k : string) : exn + value :=
  match v with
  | JUndefined =>
      inl (TypeError ("Cannot read properties of undefined (reading '" ++ k ++ "')"))
  | JNull =>
      inl (TypeError ("Cannot read properties of null (reading '" ++ k ++ "')"))
  | JObj props =>
      inr (match lookup k props with Some x => x | None => JUndefined end)
  | _ => inr JUndefined
  end.

Definition decimal (n : Z) : string :=
  match n with
  | Z0 => "0"
  | Zpos p => DecimalString.NilEmpty.string_of_uint (Pos.to_uint p)
  | Zneg p => "-" ++ DecimalString.NilEmpty.string_of_uint (Pos.to_uint p)
  end.

(** axios's default [validateStatus]. *)
Definition validateStatus (status : Z) : bool :=
  (200 <=? status)%Z && (status <? 300)%Z.

(** axios settling a request: an answer that passes [validateStatus] resolves,
    any other answer rejects with the response attached, no answer rejects
    without one. *)
Definition settle (rep : reply) : prog AxiosResponse :=
  match rep with
  | HttpReply st d =>
      if validateStatus st
      then Ret {| status := st; data := d |}
      else Throw (AxiosError (Some {| status := st; data := d |})
                    ("Request failed with status code " ++ decimal st))
  | NetworkError m => Throw (AxiosError None m)
  end.

Definition axios (r : HttpRequest) : prog AxiosResponse := Await r settle.

(** The result of letting a computation run to its end. *)
Inductive result (A : Type) : Type :=
| Returned (a : A)
| Thrown (e : exn).
Arguments Returned {A} a.
Arguments Thrown {A} e.

Section Remote.

(** The remote service: some state, and an answer to each request that may
    change that state. *)
Variable W : Type.
Variable respond : W -> HttpRequest -> reply * W.

(** Runs [p] from remote state [w]; the requests issued come out in order. *)
Fixpoint run {A : Type} (p : prog A) (w : W)
  : result A * list HttpRequest * W :=
  match p with
  | Ret a => (Returned a, [], w)
  | Throw e => (Thrown e, [], w)
  | Await r k =>
      let (rep, w1) := respond w r in
      let '(res, sent, w2) := run (k rep) w1 in
      (res, r :: sent, w2)
  end.

Definition outcome {A : Type} (p : prog A) (w : W) : result A :=
  fst (fst (run p w)).

Definition sent {A : Type} (p : prog A) (w : W) : list HttpRequest :=
  snd (fst (run p w)).

End Remote.

End Http.

(** ** The server *)

Module Server.
Import JS Http.
Local Open Scope prog_scope.

(** *** Tool registry (the ListTools handler) *)

Record Property : Type := {
  prop_name : string;
  prop_type : string;
  prop_description : string;
  prop_default : option value
}.

Record ToolDescriptor : Type := {
  name : string;
  description : string;
  properties : list Property;
  required : list string
}.

Definition listTools : list ToolDescriptor :=
  [ {| name := "execute_cql_search";
       description := "Execute a CQL query on Confluence to search pages";
       properties :=
         [ {| prop_name := "cql"; prop_type := "string";
              prop_description := "CQL query string";
              prop_default := None |};
           {| prop_name := "limit"; prop_type := "integer";
              prop_description := "Number of results to return";
              prop_default := Some (JNum 10) |} ];
       required := ["cql"] |};
    {| name := "get_page_content";
       description := "Get the content of a Confluence page";
       properties :=
         [ {| prop_name := "pageId"; prop_type := "string";
              prop_description := "Confluence Page ID";
              prop_default := None |} ];
       required := ["pageId"] |};
    {| name := "update_page_content";
       description := "Update the content of a Confluence page";
       properties :=
         [ {| prop_name := "pageId"; prop_type := "string";
              prop_description := "Confluence Page ID";
              prop_default := None |};
           {| prop_name := "content"; prop_type := "string";
              prop_description := "HTML content to update the page with";
              prop_default := None |};
           {| prop_name := "title"; prop_type := "string";
              prop_description :=
                "Page title (optional, if you want to change it)";
              prop_default := None |} ];
       required := ["pageId"; "content"] |} ].

Definition tool_names : list string := map name listTools.

(** *** Configuration *)

(** [process.env]: each variable is a string or unset. *)
Record Env : Type := {
  CONFLUENCE_URL : option string;
  CONFLUENCE_API_MAIL : option string;
  CONFLUENCE_API_KEY : option string
}.

(** An unset variable inside a template literal reads "undefined". *)
Definition interpolate (v : option string) : string :=
  match v with
  | Some s => s
  | None => "undefined"
  end.

(** *** Base64 of a byte string ([Buffer.from(s).toString('base64')]) *)

Definition base64_alphabet : string :=
  "ABCDEFGHIJKLMNOPQRSTUVWXYZabcdefghijklmnopqrstuvwxyz0123456789+/".

Definition sextet (n : N) : ascii :=
  match String.get (N.to_nat n) base64_alphabet with
  | Some c => c
  | None => "="%char
  end.

Fixpoint base64 (s : string) : string :=
  match s with
  | EmptyString => ""
  | String a EmptyString =>
      let x := N_of_ascii a in
      String (sextet (x / 4)) (String (sextet (x mod 4 * 16)) "==")
  | String a (String b EmptyString) =>
      let x := N_of_ascii a in
      let y := N_of_ascii b in
      String (sextet (x / 4))
        (String (sextet (x mod 4 * 16 + y / 16))
           (String (sextet (y mod 16 * 4)) "="))
  | String a (String b (String c rest)) =>
      let x := N_of_ascii a in
      let y := N_of_ascii b in
      let z := N_of_ascii c in
      String (sextet (x / 4))
        (String (sextet (x mod 4 * 16 + y / 16))
           (String (sextet (y mod 16 * 4 + z / 64))
              (String (sextet (z mod 64)) (base64 rest))))
  end%N.

(** *** Requests and responses of the tool protocol *)

(** [request.params]: the tool's name and, optionally, its arguments. *)
Record CallToolRequest : Type := {
  tool : string;
  arguments : option (list (string * value))
}.

(** [request.params.arguments?.k] *)
Definition argument (request : CallToolRequest) (k : string) : value :=
  match arguments request with
  | None => JUndefined
  | Some args =>
      match lookup k args with
      | Some v => v
      | None => JUndefined
      end
  end.

Record ContentItem : Type := { type : string; text : option string }.
Record CallToolResult : Type := { content : list ContentItem }.

Definition of_option (s : option string) : value :=
  match s with
  | Some x => JStr x
  | None => JUndefined
  end.

Section Handlers.

Variable NumberToString : float -> string.
Variable StringToNumber : string -> float.
Variable env : Env.

Abbreviation String_ := (ToString NumberToString).
Abbreviation Number_ := (ToNumber NumberToString StringToNumber).

Definition getAuthHeaders : list (string * string) :=
  let authHeader :=
    "Basic " ++ base64 (interpolate (CONFLUENCE_API_MAIL env) ++ ":"
                        ++ interpolate (CONFLUENCE_API_KEY env)) in
  [ ("Authorization", authHeader); ("Content-Type", "application/json") ].

(** The value of the [catch] clauses:
    [{ error: error.response ? error.response.data : error.message }] *)
Definition caught (error : exn) : value :=
  JObj [ ("error",
          match error with
          | AxiosError (Some response) _ => data response
          | AxiosError None message => JStr message
          | Error message => JStr message
          | TypeError message => JStr message
          end) ].

(** The three calls of the remote client, as axios receives them:
    [axios.get(url, {headers, params})], [axios.get(url, {headers})] and
    [axios.put(url, updatePayload, {headers})]. *)
Definition search_request (cql : string) (limit : float) : HttpRequest :=
  let params := [ ("cql", JStr cql); ("limit", JNum limit) ] in
  {| verb := GET;
     url := interpolate (CONFLUENCE_URL env)
            ++ "/wiki/rest/api/content/search";
     headers := getAuthHeaders;
     params := Some params;
     body := None |}.

Definition page_request (pageId : string) : HttpRequest :=
  {| verb := GET;
     url := interpolate (CONFLUENCE_URL env)
            ++ "/wiki/rest/api/content/" ++ pageId
            ++ "?expand=body.storage,version";
     headers := getAuthHeaders;
     params := None;
     body := None |}.

Definition update_request (pageId : string) (updatePayload : value)
  : HttpRequest :=
  {| verb := PUT;
     url := interpolate (CONFLUENCE_URL env)
            ++ "/wiki/rest/api/content/" ++ pageId;
     headers := obj_set "Content-Type" "application/json" getAuthHeaders;
     params := None;
     body := Some updatePayload |}.

Definition executeCQL (cql : string) (limit : float) : prog value :=
  try_catch
    (response <- axios (search_request cql limit) ;;
     Ret (data response))
    (fun error => Ret (caught error)).

Definition getPageContent (pageId : string) : prog value :=
  try_catch
    (response <- axios (page_request pageId) ;;
     Ret (data response))
    (fun error => Ret (caught error)).

Definition updatePageContent (pageId content : string)
  (title : option string) : prog value :=
  try_catch
    (currentPage <- getPageContent pageId ;;
     current_error <- lift (get_prop currentPage "error") ;;
     if truthy current_error then
       rendered_error <- convert (String_ current_error) ;;
       Ret (JObj [ ("error",
                    JStr ("Failed to get current page: "
                          ++ rendered_error)) ])
     else
       current_type <- lift (get_prop currentPage "type") ;;
       new_title <-
         (if truthy (of_option title) then Ret (of_option title)
          else lift (get_prop currentPage "title")) ;;
       current_space <- lift (get_prop currentPage "space") ;;
       current_version <- lift (get_prop currentPage "version") ;;
       current_number <- lift (get_prop current_version "number") ;;
       next_number <-
         convert (plus NumberToString StringToNumber
                    current_number (JNum 1)) ;;
       let updatePayload :=
         JObj [ ("id", JStr pageId);
                ("type", current_type);
                ("title", new_title);
                ("space", current_space);
                ("body",
                 JObj [ ("storage",
                         JObj [ ("value", JStr content);
                                ("representation", JStr "storage") ]) ]);
                ("version", JObj [ ("number", next_number) ]) ] in
       response <- axios (update_request pageId updatePayload) ;;
       Ret (data response))
    (fun error => Ret (caught error)).

(** The envelope every case of the handler returns. *)
Definition text_content (response : value) : CallToolResult :=
  {| content :=
       [ {| type := "text";
            text := JSON_stringify NumberToString response |} ] |}.

(** The CallTool handler.  The conversions of a case come first, in the
    order of its [const] declarations, and outside any [try]: what they
    throw leaves the handler. *)
Definition callTool (request : CallToolRequest) : prog CallToolResult :=
  if String.eqb (tool request) "execute_cql_search" then
    cql <- convert (String_ (argument request "cql")) ;;
    limit <-
      convert (Number_ (nullish_or (argument request "limit") (JNum 10))) ;;
    if negb (truthy (JStr cql)) then Throw (Error "CQL query is required")
    else
      response <- executeCQL cql limit ;;
      Ret (text_content response)
  else if String.eqb (tool request) "get_page_content" then
    pageId <- convert (String_ (argument request "pageId")) ;;
    if negb (truthy (JStr pageId)) then Throw (Error "Page ID is required")
    else
      response <- getPageContent pageId ;;
      Ret (text_content response)
  else if String.eqb (tool request) "update_page_content" then
    pageId <- convert (String_ (argument request "pageId")) ;;
    content <- convert (String_ (argument request "content")) ;;
    title <-
      (if truthy (argument request "title")
       then convert (option_map Some (String_ (argument request "title")))
       else Ret None) ;;
    if negb (truthy (JStr pageId)) then Throw (Error "Page ID is required")
    else if negb (truthy (JStr content)) then
      Throw (Error "Content is required")
    else
      response <- updatePageContent pageId content title ;;
      Ret (text_content response)
  else Throw (Error "Unknown tool").

End Handlers.

End Server.

(** ** The earlier handler

    The repository also holds the server as it was before
    update_page_content was added: two tools, and the REST paths without
    the [/wiki] prefix and without [version] in the page's [expand]. *)

Module Legacy.
Import JS Http Server.
Local Open Scope prog_scope.

Definition listTools : list ToolDescriptor :=
  [ {| name := "execute_cql_search";
       description := "Execute a CQL query on Confluence to search pages";
       properties :=
         [ {| prop_name := "cql"; prop_type := "string";
              prop_description := "CQL query string";
              prop_default := None |};
           {| prop_name := "limit"; prop_type := "integer";
              prop_description := "Number of results to return";
              prop_default := Some (JNum 10) |} ];
       required := ["cql"] |};
    {| name := "get_page_content";
       description := "Get the content of a Confluence page";
       properties :=
         [ {| prop_name := "pageId"; prop_type := "string";
              prop_description := "Confluence Page ID";
              prop_default := None |} ];
       required := ["pageId"] |} ].

Section Handlers.

Variable NumberToString : float -> string.
Variable StringToNumber : string -> float.
Variable env : Env.

Definition search_request (cql : string) (limit : float) : HttpRequest :=
  let params := [ ("cql", JStr cql); ("limit", JNum limit) ] in
  {| verb := GET;
     url := interpolate (CONFLUENCE_URL env) ++ "/rest/api/content/search";
     headers := getAuthHeaders env;
     params := Some params;
     body := None |}.

Definition page_request (pageId : string) : HttpRequest :=
  {| verb := GET;
     url := interpolate (CONFLUENCE_URL env)
            ++ "/rest/api/content/" ++ pageId ++ "?expand=body.storage";
     headers := getAuthHeaders env;
     params := None;
     body := None |}.

Definition executeCQL (cql : string) (limit : float) : prog value :=
  try_catch
    (response <- axios (search_request cql limit) ;;
     Ret (data response))
    (fun error => Ret (caught error)).

Definition getPageContent (pageId : string) : prog value :=
  try_catch
    (response <- axios (page_request pageId) ;;
     Ret (data response))
    (fun error => Ret (caught error)).

Definition callTool (request : CallToolRequest) : prog CallToolResult :=
  if String.eqb (tool request) "execute_cql_search" then
    cql <- convert (ToString NumberToString (argument request "cql")) ;;
    limit <-
      convert (ToNumber NumberToString StringToNumber
                 (nullish_or (argument request "limit") (JNum 10))) ;;
    if negb (truthy (JStr cql)) then Throw (Error "CQL query is required")
    else
      response <- executeCQL cql limit ;;
      Ret (text_content NumberToString response)
  else if String.eqb (tool request) "get_page_content" then
    pageId <- convert (ToString NumberToString (argument request "pageId")) ;;
    if negb (truthy (JStr pageId)) then Throw (Error "Page ID is required")
    else
      response <- getPageContent pageId ;;
      Ret (text_content NumberToString response)
  else Throw (Error "Unknown tool").

End Handlers.

End Legacy.

(** ** Reading base64 back

    The program only encodes.  The decoder is here to show that nothing is
    lost on the way into the Authorization header. *)

Module Base64.
Import Server.

(** The place of a character in the alphabet, if it has one. *)
Fixpoint index_of (c : ascii) (alphabet : string) : option N :=
  match alphabet with
  | EmptyString => None
  | String a rest =>
      if Ascii.eqb c a then Some 0%N
      else option_map N.succ (index_of c rest)
  end.

Definition unsextet (c : ascii) : option N := index_of c base64_alphabet.

Definition byte (n : N) : ascii := ascii_of_N n.

Fixpoint decode (s : string) : option string :=
  match s with
  | EmptyString => Some EmptyString
  | String c1 (String c2 (String c3 (String c4 rest))) =>
      match unsextet c1, unsextet c2, unsextet c3, unsextet c4 with
      | Some q1, Some q2, Some q3, Some q4 =>
          match decode rest with
          | Some tail =>
              Some (String (byte (q1 * 4 + q2 / 16))
                      (String (byte (q2 mod 16 * 16 + q3 / 4))
                         (String (byte (q3 mod 4 * 64 + q4)) tail)))
          | None => None
          end
      | Some q1, Some q2, Some q3, None =>
          if Ascii.eqb c4 "=" then
            match rest with
            | EmptyString =>
                Some (String (byte (q1 * 4 + q2 / 16))
                        (String (byte (q2 mod 16 * 16 + q3 / 4)) ""))
            | _ => None
            end
          else None
      | Some q1, Some q2, None, None =>
          if Ascii.eqb c3 "=" && Ascii.eqb c4 "=" then
            match rest with
            | EmptyString => Some (String (byte (q1 * 4 + q2 / 16)) "")
            | _ => None
            end
          else None
      | _, _, _, _ => None
      end
  | _ => None
  end%N.

End Base64.

(** ** Vocabulary for the statements

    Nothing here is program text: these name what a reply means to axios,
    what the handlers read out of a request, and where [updatePageContent]
    stands between its two calls. *)

Module Reading.
Import JS Http Server.

(** The body of a reply that axios resolves. *)
Definition success (rep : reply) : option value :=
  match rep with
  | HttpReply st d => if validateStatus st then Some d else None
  | NetworkError _ => None
  end.

(** The error of a reply that axios rejects: the body of an answer outside
    2xx, the exception's message when there was no answer. *)
Definition failure (rep : reply) : option value :=
  match rep with
  | HttpReply st d => if validateStatus st then None else Some d
  | NetworkError m => Some (JStr m)
  end.

(** What a [try { await axios... ; return response.data } catch ...] hands
    back for a reply. *)
Definition answer (rep : reply) : value :=
  match rep with
  | HttpReply st d => if validateStatus st then d else JObj [("error", d)]
  | NetworkError m => JObj [("error", JStr m)]
  end.

(** [v.k] where the read cannot throw. *)
Definition field (v : value) (k : string) : value :=
  match get_prop v k with
  | inr x => x
  | inl _ => JUndefined
  end.

(** What [updatePageContent] does with the page it fetched, before it awaits
    anything else: it gives up with a value, goes on to PUT a payload, or
    trips over a property read. *)
Inductive step : Type :=
| Abort (v : value)
| Put (updatePayload : value)
| Crash (e : exn).

(** The values [String] renders as the empty string: the empty string, the
    empty array, and an array of one element that is [null], [undefined] or
    again such a value. *)
Inductive blank : value -> Prop :=
| blank_string : blank (JStr "")
| blank_empty : blank (JArr [])
| blank_nullish (e : value) : is_nullish e = true -> blank (JArr [e])
| blank_nested (e : value) : blank e -> blank (JArr [e]).

(** The ticket and JQL tools of the interface table. *)
Definition ticket_tools : list string :=
  [ "execute_jql"; "get_only_ticket_name_and_description"; "create_ticket";
    "list_projects"; "delete_ticket"; "edit_ticket"; "get_all_statuses";
    "assign_ticket"; "query_assignable" ].



Section WithEngine.

Variable NumberToString : float -> string.
Variable StringToNumber : string -> float.

(** The arguments as each case of the handler converts them; [None] where
    the conversion throws. *)
Definition cql_of (request : CallToolRequest) : option string :=
  ToString NumberToString (argument request "cql").

Definition limit_of (request : CallToolRequest) : option float :=
  ToNumber NumberToString StringToNumber
    (nullish_or (argument request "limit") (JNum 10)).

Definition pageId_of (request : CallToolRequest) : option string :=
  ToString NumberToString (argument request "pageId").

Definition content_of (request : CallToolRequest) : option string :=
  ToString NumberToString (argument request "content").

Definition title_of (request : CallToolRequest) : option (option string) :=
  if truthy (argument request "title")
  then option_map Some (ToString NumberToString (argument request "title"))
  else Some None.

(** [String(v)] does not throw. *)
Definition converts (v : value) : Prop := ToString NumberToString v <> None.

(** The payload of the PUT, given the version number already incremented. *)
Definition payload (pageId content : string) (title : option string)
  (currentPage next_number : value) : value :=
  JObj [ ("id", JStr pageId);
         ("type", field currentPage "type");
         ("title", or_else (of_option title) (field currentPage "title"));
         ("space", field currentPage "space");
         ("body",
          JObj [ ("storage",
                  JObj [ ("value", JStr content);
                         ("representation", JStr "storage") ]) ]);
         ("version", JObj [ ("number", next_number) ]) ].

Definition between (pageId content : string) (title : option string)
  (currentPage : value) : step :=
  match get_prop currentPage "error" with
  | inl e => Crash e
  | inr current_error =>
      if truthy current_error then
        match ToString NumberToString current_error with
        | Some rendered_error =>
            Abort (JObj [ ("error",
                           JStr ("Failed to get current page: "
                                 ++ rendered_error)) ])
        | None => Crash conversion_error
        end
      else
        match get_prop (field currentPage "version") "number" with
        | inl e => Crash e
        | inr number =>
            match plus NumberToString StringToNumber number (JNum 1) with
            | Some next_number =>
                Put (payload pageId content title currentPage next_number)
            | None => Crash conversion_error
            end
        end
  end.

End WithEngine.

End Reading.

(** ** A concrete engine, configuration and mocked remote

    The theorems below hold for every number conversion, every environment
    and every remote.  To run the handlers on concrete requests one of each
    is needed; these are the ones the examples use. *)

Module Sample.
Import JS Http Server.

(** The integer nearest zero-wards to a finite double. *)
Definition integer_part (x : float) : Z :=
  match Prim2SF x with
  | S754_finite s m e =>
      let magnitude :=
        if 0 <=? e then Z.pos m * 2 ^ e else Z.pos m / 2 ^ (- e) in
      if s then - magnitude else magnitude
  | _ => 0
  end%Z.

(** Number::toString on the doubles the examples go through: exact on NaN,
    the infinities and the integers of magnitude up to 2^53; a fraction is
    cut off, which the engine would print. *)
Definition NumberToString (x : float) : string :=
  if PrimFloat.is_nan x then "NaN"
  else if PrimFloat.is_infinity x then
    (if PrimFloat.ltb x 0 then "-Infinity" else "Infinity")
  else decimal (integer_part x).

(** StringToNumber on the empty string and on plain digit strings below
    2^53; the engine also reads signs, fractions, exponents and blanks, all
    of which are NaN here. *)
Definition StringToNumber (s : string) : float :=
  match NilEmpty.uint_of_string s with
  | Some u => PrimFloat.of_uint63 (Uint63.of_Z (Z.of_N (N.of_uint u)))
  | None => nan
  end.

Definition env : Env :=
  {| CONFLUENCE_URL := Some "https://example.atlassian.net";
     CONFLUENCE_API_MAIL := Some "user@example.com";
     CONFLUENCE_API_KEY := Some "abcdef1234567890abcdef" |}.

(** A mocked remote: it answers from a script, whatever the request, and
    drops the connection once the script is used up. *)
Definition scripted (script : list reply) (r : HttpRequest)
  : reply * list reply :=
  match script with
  | [] => (NetworkError "socket hang up", [])
  | rep :: rest => (rep, rest)
  end.

Definition callTool := Server.callTool NumberToString StringToNumber env.

Definition call (request : CallToolRequest) (script : list reply)
  : result CallToolResult * list HttpRequest * list reply :=
  run (list reply) scripted (callTool request) script.

(** A page as Confluence returns it, cut down to what the update reads. *)
Definition page : value :=
  JObj [ ("id", JStr "12345");
         ("type", JStr "page");
         ("title", JStr "T");
         ("space", JObj [ ("key", JStr "DOC") ]);
         ("version", JObj [ ("number", JNum 3) ]) ].

(** An argument no conversion accepts: its own [toString] is not a
    function. *)
Definition stubborn : value := JObj [ ("toString", JNum 1) ].

Definition not_found : value :=
  JObj [ ("statusCode", JNum 404);
         ("message", JStr "No content found with id: ContentId{id=12345}") ].

Definition search (arguments : list (string * value)) : CallToolRequest :=
  {| tool := "execute_cql_search"; arguments := Some arguments |}.

Definition fetch (arguments : list (string * value)) : CallToolRequest :=
  {| tool := "get_page_content"; arguments := Some arguments |}.

Definition update (arguments : list (string * value)) : CallToolRequest :=
  {| tool := "update_page_content"; arguments := Some arguments |}.

End Sample.

(** ** How computations run *)

Module RunFacts.
Import JS Http.

Section WithRemote.

Variable W : Type.
Variable respond : W -> HttpRequest -> reply * W.

Abbreviation run := (run W respond).

(** Sequencing: the requests of [bind p f] are those of [p] followed, when
    [p] returns, by those of the continuation. *)
Lemma run_bind {A B : Type} (p : prog A) (f : A -> prog B) (w : W) :
  run (bind p f) w =
  match run p w with
  | (Returned a, s1, w1) =>
      let '(res, s2, w2) := run (f a) w1 in (res, (s1 ++ s2)%list, w2)
  | (Thrown e, s1, w1) => (Thrown e, s1, w1)
  end.
Proof.
  revert w; induction p as [a | e | r k IH]; intro w; simpl.
  - destruct (run (f a) w) as [[res s2] w2]; reflexivity.
  - reflexivity.
  - destruct (respond w r) as [rep w1].
    rewrite IH.
    destruct (run (k rep) w1) as [[[a | e] s1] w2]; simpl.
    + destruct (run (f a) w2) as [[res s2] w3]; reflexivity.
    + reflexivity.
Qed.

(** A [catch] clause sees the exception and takes over from the state the
    remote was left in. *)
Lemma run_try_catch {A : Type} (p : prog A) (h : exn -> prog A) (w : W) :
  run (try_catch p h) w =
  match run p w with
  | (Returned a, s1, w1) => (Returned a, s1, w1)
  | (Thrown e, s1, w1) =>
      let '(res, s2, w2) := run (h e) w1 in (res, (s1 ++ s2)%list, w2)
  end.
Proof.
  revert w; induction p as [a | e | r k IH]; intro w; simpl.
  - reflexivity.
  - destruct (run (h e) w) as [[res s2] w2]; reflexivity.
  - destruct (respond w r) as [rep w1].
    rewrite IH.
    destruct (run (k rep) w1) as [[[a | e] s1] w2]; simpl.
    + reflexivity.
    + destruct (run (h e) w2) as [[res s2] w3]; reflexivity.
Qed.

(** A [try] whose [catch] clause only returns a value never throws. *)
Lemma try_catch_returns {A : Type} (p : prog A) (h : exn -> A) (w : W) :
  exists a, outcome W respond (try_catch p (fun e => Ret (h e))) w
            = Returned a.
Proof.
  unfold outcome.
  rewrite run_try_catch.
  destruct (run p w) as [[[a | e] s1] w1]; simpl; eauto.
Qed.

(** One awaited axios call. *)
Lemma run_axios (r : HttpRequest) (w : W) :
  run (axios r) w =
  (match fst (respond w r) with
   | HttpReply st d =>
       if validateStatus st
       then Returned {| status := st; data := d |}
       else Thrown (AxiosError (Some {| status := st; data := d |})
                      ("Request failed with status code " ++ decimal st))
   | NetworkError m => Thrown (AxiosError None m)
   end, [r], snd (respond w r)).
Proof.
  unfold axios; simpl.
  destruct (respond w r) as [[st d | m] w1]; simpl.
  - destruct (validateStatus st); reflexivity.
  - reflexivity.
Qed.

End WithRemote.

End RunFacts.

(** ** The remote client, one call at a time *)

Module ClientFacts.
Import JS Http Server Reading RunFacts.

Lemma answer_success (rep : reply) (d : value) :
  success rep = Some d -> answer rep = d.
Proof.
  destruct rep as [st d' | m]; simpl; [ | discriminate ].
  destruct (validateStatus st); congruence.
Qed.

Lemma answer_failure (rep : reply) (b : value) :
  failure rep = Some b -> answer rep = JObj [("error", b)].
Proof.
  destruct rep as [st d' | m]; simpl.
  - destruct (validateStatus st); congruence.
  - congruence.
Qed.

Section WithRemote.

Variable NumberToString : float -> string.
Variable StringToNumber : string -> float.
Variable env : Env.
Variable W : Type.
Variable respond : W -> HttpRequest -> reply * W.

(** A try-wrapped single call: one request, and the reply's [answer]. *)
Lemma run_single (r : HttpRequest) (w : W) :
  run W respond
    (try_catch (bind (axios r) (fun response => Ret (data response)))
       (fun error => Ret (caught error))) w
  = (Returned (answer (fst (respond w r))), [r], snd (respond w r)).
Proof.
  rewrite run_try_catch, run_bind, run_axios.
  destruct (fst (respond w r)) as [st d | m]; simpl.
  - destruct (validateStatus st); reflexivity.
  - reflexivity.
Qed.

Lemma run_executeCQL (cql : string) (limit : float) (w : W) :
  run W respond (executeCQL env cql limit) w
  = (Returned (answer (fst (respond w (search_request env cql limit)))),
     [search_request env cql limit],
     snd (respond w (search_request env cql limit))).
Proof. apply run_single. Qed.

Lemma run_getPageContent (pageId : string) (w : W) :
  run W respond (getPageContent env pageId) w
  = (Returned (answer (fst (respond w (page_request env pageId)))),
     [page_request env pageId],
     snd (respond w (page_request env pageId))).
Proof. apply run_single. Qed.

(** Each function of the remote client is one [try] whose [catch] returns:
    it hands back a value whatever the remote does. *)
Lemma remote_client_never_throws (w : W) :
  (forall cql limit,
      exists v, outcome W respond (executeCQL env cql limit) w = Returned v)
  /\ (forall pageId,
        exists v, outcome W respond (getPageContent env pageId) w = Returned v)
  /\ (forall pageId content title,
        exists v,
          outcome W respond
            (updatePageContent NumberToString StringToNumber env
               pageId content title) w
          = Returned v).
Proof.
  repeat split; intros; apply try_catch_returns.
Qed.

End WithRemote.

End ClientFacts.

(** ** When conversions throw *)

Module ConversionFacts.
Import JS Http Server Reading.

Section WithEngine.

Variable NumberToString : float -> string.
Variable StringToNumber : string -> float.

Abbreviation String_ := (ToString NumberToString).
Abbreviation Number_ := (ToNumber NumberToString StringToNumber).
Abbreviation plus_ := (plus NumberToString StringToNumber).

(** Only arrays and objects can fail to convert. *)
Lemma ToPrimitive_ToString (v : value) :
  ToPrimitive NumberToString v = None <-> String_ v = None.
Proof.
  destruct v as [ | | [ | ] | x | s | elems | props ]; simpl;
    try (split; discriminate).
  - destruct (traverse _ elems); simpl; split; (discriminate || reflexivity).
  - destruct (lookup "toString" props); simpl;
      split; (discriminate || reflexivity).
Qed.

(** [Number(v)] throws exactly where [String(v)] does. *)
Lemma ToNumber_ToString (v : value) :
  Number_ v = None <-> String_ v = None.
Proof.
  rewrite <- ToPrimitive_ToString. unfold ToNumber.
  destruct (ToPrimitive NumberToString v); simpl;
    split; (discriminate || reflexivity).
Qed.

(** [v + 1] throws exactly where [String(v)] does. *)
Lemma plus_one_ToString (v : value) :
  plus_ v (JNum 1) = None <-> String_ v = None.
Proof.
  rewrite <- ToPrimitive_ToString. unfold plus.
  destruct (ToPrimitive NumberToString v); simpl;
    split; (discriminate || reflexivity).
Qed.

Lemma plus_one_number (n : float) : plus_ (JNum n) (JNum 1) = Some (JNum (n + 1)).
Proof. reflexivity. Qed.

Lemma plus_one_string (s : string) :
  plus_ (JStr s) (JNum 1) = Some (JStr (s ++ NumberToString 1)).
Proof. reflexivity. Qed.

(** What is falsy is a primitive, and converts. *)
Lemma falsy_converts (v : value) : truthy v = false -> String_ v <> None.
Proof.
  destruct v as [ | | [ | ] | x | s | elems | props ]; simpl;
    discriminate.
Qed.

Lemma nullish_converts (v : value) : is_nullish v = true -> String_ v <> None.
Proof.
  destruct v; simpl; discriminate.
Qed.

(** The limit converts exactly where its argument does. *)
Lemma limit_of_None (request : CallToolRequest) :
  limit_of NumberToString StringToNumber request = None
  <-> String_ (argument request "limit") = None.
Proof.
  unfold limit_of, nullish_or. rewrite ToNumber_ToString.
  destruct (is_nullish (argument request "limit")) eqn:Hnull.
  - split; [ discriminate | ].
    intro H. exfalso. exact (nullish_converts _ Hnull H).
  - reflexivity.
Qed.

(** The title converts exactly where its argument does. *)
Lemma title_of_None (request : CallToolRequest) :
  title_of NumberToString request = None
  <-> String_ (argument request "title") = None.
Proof.
  unfold title_of.
  destruct (truthy (argument request "title")) eqn:Htruthy.
  - destruct (String_ (argument request "title")); simpl;
      split; (discriminate || reflexivity).
  - split; [ discriminate | ].
    intro H. exfalso. exact (falsy_converts _ Htruthy H).
Qed.

End WithEngine.

End ConversionFacts.

(** ** updatePageContent between its two calls *)

Module UpdateFacts.
Import JS Http Server Reading RunFacts ClientFacts.

Section WithEngine.

Variable NumberToString : float -> string.
Variable StringToNumber : string -> float.

Variable env : Env.
Variable W : Type.
Variable respond : W -> HttpRequest -> reply * W.

(** [updatePageContent] is: fetch, decide by [between], and PUT when that
    says so; whatever goes wrong ends up in the returned value. *)
Lemma run_updatePageContent (pageId content : string)
  (title : option string) (w : W) :
  let fetch := page_request env pageId in
  let w1 := snd (respond w fetch) in
  run W respond
    (updatePageContent NumberToString StringToNumber env
       pageId content title) w
  = match between NumberToString StringToNumber pageId content title
            (answer (fst (respond w fetch))) with
    | Abort v => (Returned v, [fetch], w1)
    | Crash e => (Returned (caught e), [fetch], w1)
    | Put updatePayload =>
        let put := update_request env pageId updatePayload in
        (Returned (answer (fst (respond w1 put))), [fetch; put],
         snd (respond w1 put))
    end.
Proof.
  intros fetch w1.
  unfold updatePageContent.
  rewrite run_try_catch, run_bind, run_getPageContent.
  fold fetch; fold w1.
  unfold between, payload, or_else.
  destruct (truthy (of_option title)).
  all: destruct (answer (fst (respond w fetch)))
         as [ | | b | x | s | l | props ];
    try reflexivity.
  all: cbn [get_prop lift bind].
  all: match goal with
       | |- context [truthy ?e] =>
           destruct (truthy e);
           [ destruct (ToString NumberToString e); reflexivity | ]
       end.
  all: cbn [field get_prop lift bind].
  all: try reflexivity.
  all: destruct (match lookup "version" props with
                 | Some x => x
                 | None => JUndefined
                 end) as [ | | b | x | s | l | vprops ];
    try reflexivity.
  all: cbn [get_prop lift bind].
  all: match goal with
       | |- context [plus NumberToString StringToNumber ?n (JNum 1)] =>
           destruct (plus NumberToString StringToNumber n (JNum 1));
           [ | reflexivity ]
       end.
  all: cbn [convert bind];
       rewrite run_bind, run_axios;
       match goal with
       | |- context [respond ?w' (update_request ?e ?p ?u)] =>
           destruct (fst (respond w' (update_request e p u)))
             as [st d | m]; simpl;
           [ destruct (validateStatus st) | ]; reflexivity
       end.
Qed.

End WithEngine.

End UpdateFacts.

(** ** The dispatcher, case by case *)

Module DispatchFacts.
Import JS Http Server Reading RunFacts ClientFacts UpdateFacts.

Lemma tool_names_eq :
  tool_names = ["execute_cql_search"; "get_page_content"; "update_page_content"].
Proof. reflexivity. Qed.

(** [!s] on a string is [s === ""]. *)
Lemma falsy_string (s : string) : negb (truthy (JStr s)) = true <-> s = "".
Proof.
  simpl. rewrite negb_involutive. apply String.eqb_eq.
Qed.

Lemma truthy_string (s : string) : truthy (JStr s) = true <-> s <> "".
Proof.
  simpl. rewrite negb_true_iff. apply String.eqb_neq.
Qed.

Lemma not_truthy_string (s : string) :
  negb (truthy (JStr s)) = String.eqb s "".
Proof. simpl. apply negb_involutive. Qed.

Section WithEngine.

Variable NumberToString : float -> string.
Variable StringToNumber : string -> float.
Variable env : Env.

Abbreviation String_ := (ToString NumberToString).
Abbreviation Number_ := (ToNumber NumberToString StringToNumber).
Abbreviation callTool := (callTool NumberToString StringToNumber env).
Abbreviation text_content := (text_content NumberToString).
Abbreviation cql_of := (cql_of NumberToString).
Abbreviation limit_of := (limit_of NumberToString StringToNumber).
Abbreviation pageId_of := (pageId_of NumberToString).
Abbreviation content_of := (content_of NumberToString).
Abbreviation title_of := (title_of NumberToString).

Lemma callTool_unknown (request : CallToolRequest) :
  ~ In (tool request) tool_names ->
  callTool request = Throw (Error "Unknown tool").
Proof.
  intro Hnot. unfold Server.callTool.
  destruct (String.eqb_spec (tool request) "execute_cql_search") as [E | _].
  { exfalso; apply Hnot; rewrite E; simpl; auto. }
  destruct (String.eqb_spec (tool request) "get_page_content") as [E | _].
  { exfalso; apply Hnot; rewrite E; simpl; auto. }
  destruct (String.eqb_spec (tool request) "update_page_content") as [E | _].
  { exfalso; apply Hnot; rewrite E; simpl; auto. }
  reflexivity.
Qed.

(** Each case of the handler, with its conversions spelled out. *)
Lemma callTool_search (request : CallToolRequest) :
  tool request = "execute_cql_search" ->
  callTool request =
  match cql_of request, limit_of request with
  | Some cql, Some limit =>
      if String.eqb cql "" then Throw (Error "CQL query is required")
      else bind (executeCQL env cql limit)
             (fun response => Ret (text_content response))
  | _, _ => Throw conversion_error
  end.
Proof.
  intro E. unfold Server.callTool. rewrite E.
  change (String.eqb "execute_cql_search" "execute_cql_search") with true.
  cbv iota. fold (cql_of request). fold (limit_of request).
  destruct (cql_of request) as [cql | ]; [ | reflexivity ].
  destruct (limit_of request) as [limit | ]; [ | reflexivity ].
  cbn [convert bind]. rewrite not_truthy_string. reflexivity.
Qed.

Lemma callTool_page (request : CallToolRequest) :
  tool request = "get_page_content" ->
  callTool request =
  match pageId_of request with
  | Some pageId =>
      if String.eqb pageId "" then Throw (Error "Page ID is required")
      else bind (getPageContent env pageId)
             (fun response => Ret (text_content response))
  | None => Throw conversion_error
  end.
Proof.
  intro E. unfold Server.callTool. rewrite E.
  change (String.eqb "get_page_content" "execute_cql_search") with false.
  change (String.eqb "get_page_content" "get_page_content") with true.
  cbv iota. fold (pageId_of request).
  destruct (pageId_of request) as [pageId | ]; [ | reflexivity ].
  cbn [convert bind]. rewrite not_truthy_string. reflexivity.
Qed.

Lemma callTool_update (request : CallToolRequest) :
  tool request = "update_page_content" ->
  callTool request =
  match pageId_of request, content_of request, title_of request with
  | Some pageId, Some content, Some title =>
      if String.eqb pageId "" then Throw (Error "Page ID is required")
      else if String.eqb content "" then Throw (Error "Content is required")
      else bind (updatePageContent NumberToString StringToNumber env
                   pageId content title)
             (fun response => Ret (text_content response))
  | _, _, _ => Throw conversion_error
  end.
Proof.
  intro E. unfold Server.callTool. rewrite E.
  change (String.eqb "update_page_content" "execute_cql_search") with false.
  change (String.eqb "update_page_content" "get_page_content") with false.
  change (String.eqb "update_page_content" "update_page_content") with true.
  cbv iota.
  fold (pageId_of request). fold (content_of request).
  unfold Reading.title_of.
  destruct (pageId_of request) as [pageId | ]; [ | reflexivity ].
  destruct (content_of request) as [content | ]; [ | reflexivity ].
  cbn [convert bind].
  destruct (truthy (argument request "title")).
  - destruct (String_ (argument request "title")) as [title | ];
      [ | reflexivity ].
    cbn [option_map convert bind]. rewrite !not_truthy_string. reflexivity.
  - cbn [bind]. rewrite !not_truthy_string. reflexivity.
Qed.

(** A registered name never falls through to the default case. *)
Lemma callTool_known (request : CallToolRequest) :
  In (tool request) tool_names ->
  callTool request <> Throw (Error "Unknown tool").
Proof.
  rewrite tool_names_eq. simpl.
  intros [E | [E | [E | []]]]; symmetry in E.
  - rewrite (callTool_search _ E).
    destruct (cql_of request) as [cql | ]; [ | discriminate ].
    destruct (limit_of request) as [limit | ]; [ | discriminate ].
    destruct (String.eqb cql ""); [ discriminate | ].
    unfold executeCQL, axios; simpl; discriminate.
  - rewrite (callTool_page _ E).
    destruct (pageId_of request) as [pageId | ]; [ | discriminate ].
    destruct (String.eqb pageId ""); [ discriminate | ].
    unfold getPageContent, axios; simpl; discriminate.
  - rewrite (callTool_update _ E).
    destruct (pageId_of request) as [pageId | ]; [ | discriminate ].
    destruct (content_of request) as [content | ]; [ | discriminate ].
    destruct (title_of request) as [title | ]; [ | discriminate ].
    destruct (String.eqb pageId ""); [ discriminate | ].
    destruct (String.eqb content ""); [ discriminate | ].
    unfold updatePageContent, getPageContent, axios; simpl; discriminate.
Qed.

(** A request is for one of the three tools or for none of them. *)
Lemma tool_cases (request : CallToolRequest) :
  tool request = "execute_cql_search"
  \/ tool request = "get_page_content"
  \/ tool request = "update_page_content"
  \/ ~ In (tool request) tool_names.
Proof.
  destruct (in_dec string_dec (tool request) tool_names) as [Hin | Hnot].
  - rewrite tool_names_eq in Hin.
    destruct Hin as [E | [E | [E | []]]]; symmetry in E; auto.
  - auto.
Qed.

Variable W : Type.
Variable respond : W -> HttpRequest -> reply * W.

Abbreviation run := (Http.run W respond).

(** How each case runs: a conversion that throws, a validation that fails,
    or the remote client at work. *)
Lemma run_search_cases (request : CallToolRequest) (w : W) :
  tool request = "execute_cql_search" ->
  run (callTool request) w =
  match cql_of request, limit_of request with
  | Some cql, Some limit =>
      if String.eqb cql ""
      then (Thrown (Error "CQL query is required"), [], w)
      else
        let get := search_request env cql limit in
        (Returned (text_content (answer (fst (respond w get)))),
         [get], snd (respond w get))
  | _, _ => (Thrown conversion_error, [], w)
  end.
Proof.
  intro E. rewrite (callTool_search _ E).
  destruct (cql_of request) as [cql | ]; [ | reflexivity ].
  destruct (limit_of request) as [limit | ]; [ | reflexivity ].
  destruct (String.eqb cql ""); [ reflexivity | ].
  rewrite run_bind, run_executeCQL. reflexivity.
Qed.

Lemma run_page_cases (request : CallToolRequest) (w : W) :
  tool request = "get_page_content" ->
  run (callTool request) w =
  match pageId_of request with
  | Some pageId =>
      if String.eqb pageId ""
      then (Thrown (Error "Page ID is required"), [], w)
      else
        let get := page_request env pageId in
        (Returned (text_content (answer (fst (respond w get)))),
         [get], snd (respond w get))
  | None => (Thrown conversion_error, [], w)
  end.
Proof.
  intro E. rewrite (callTool_page _ E).
  destruct (pageId_of request) as [pageId | ]; [ | reflexivity ].
  destruct (String.eqb pageId ""); [ reflexivity | ].
  rewrite run_bind, run_getPageContent. reflexivity.
Qed.

Lemma run_update_cases (request : CallToolRequest) (w : W) :
  tool request = "update_page_content" ->
  run (callTool request) w =
  match pageId_of request, content_of request, title_of request with
  | Some pageId, Some content, Some title =>
      if String.eqb pageId ""
      then (Thrown (Error "Page ID is required"), [], w)
      else if String.eqb content ""
      then (Thrown (Error "Content is required"), [], w)
      else
        let fetch := page_request env pageId in
        let w1 := snd (respond w fetch) in
        match between NumberToString StringToNumber pageId content title
                (answer (fst (respond w fetch))) with
        | Abort v => (Returned (text_content v), [fetch], w1)
        | Crash e => (Returned (text_content (caught e)), [fetch], w1)
        | Put updatePayload =>
            let put := update_request env pageId updatePayload in
            (Returned (text_content (answer (fst (respond w1 put)))),
             [fetch; put], snd (respond w1 put))
        end
  | _, _, _ => (Thrown conversion_error, [], w)
  end.
Proof.
  intro E. rewrite (callTool_update _ E).
  destruct (pageId_of request) as [pageId | ]; [ | reflexivity ].
  destruct (content_of request) as [content | ]; [ | reflexivity ].
  destruct (title_of request) as [title | ]; [ | reflexivity ].
  destruct (String.eqb pageId ""); [ reflexivity | ].
  destruct (String.eqb content ""); [ reflexivity | ].
  rewrite run_bind, run_updatePageContent.
  cbv zeta.
  destruct (between _ _ _ _ _ _); reflexivity.
Qed.

Lemma run_unknown (request : CallToolRequest) (w : W) :
  ~ In (tool request) tool_names ->
  run (callTool request) w = (Thrown (Error "Unknown tool"), [], w).
Proof.
  intro Hnot. rewrite (callTool_unknown _ Hnot). reflexivity.
Qed.

(** The cases in which the remote client is reached. *)
Lemma run_search (request : CallToolRequest) (w : W) (cql : string)
  (limit : float) :
  tool request = "execute_cql_search" ->
  cql_of request = Some cql -> cql <> "" -> limit_of request = Some limit ->
  let get := search_request env cql limit in
  run (callTool request) w
  = (Returned (text_content (answer (fst (respond w get)))),
     [get], snd (respond w get)).
Proof.
  intros E Hcql Hfull Hlimit get.
  rewrite (run_search_cases _ _ E), Hcql, Hlimit.
  apply String.eqb_neq in Hfull. rewrite Hfull. reflexivity.
Qed.

Lemma run_page (request : CallToolRequest) (w : W) (pageId : string) :
  tool request = "get_page_content" ->
  pageId_of request = Some pageId -> pageId <> "" ->
  let get := page_request env pageId in
  run (callTool request) w
  = (Returned (text_content (answer (fst (respond w get)))),
     [get], snd (respond w get)).
Proof.
  intros E Hid Hfull get.
  rewrite (run_page_cases _ _ E), Hid.
  apply String.eqb_neq in Hfull. rewrite Hfull. reflexivity.
Qed.

Lemma run_update (request : CallToolRequest) (w : W)
  (pageId content : string) (title : option string) :
  tool request = "update_page_content" ->
  pageId_of request = Some pageId -> pageId <> "" ->
  content_of request = Some content -> content <> "" ->
  title_of request = Some title ->
  let fetch := page_request env pageId in
  let w1 := snd (respond w fetch) in
  run (callTool request) w
  = match between NumberToString StringToNumber pageId content title
            (answer (fst (respond w fetch))) with
    | Abort v => (Returned (text_content v), [fetch], w1)
    | Crash e => (Returned (text_content (caught e)), [fetch], w1)
    | Put updatePayload =>
        let put := update_request env pageId updatePayload in
        (Returned (text_content (answer (fst (respond w1 put)))),
         [fetch; put], snd (respond w1 put))
    end.
Proof.
  intros E Hid Hfull Hcontent Hfull' Htitle fetch w1.
  rewrite (run_update_cases _ _ E), Hid, Hcontent, Htitle.
  apply String.eqb_neq in Hfull, Hfull'. rewrite Hfull, Hfull'. reflexivity.
Qed.

(** Once a request has gone out, the conversions and the validation of the
    case lie behind. *)
Lemma sent_search_inv (request : CallToolRequest) (w : W)
  (first : HttpRequest) (rest : list HttpRequest) :
  tool request = "execute_cql_search" ->
  sent W respond (callTool request) w = first :: rest ->
  exists cql limit,
    cql_of request = Some cql /\ cql <> "" /\ limit_of request = Some limit
    /\ first = search_request env cql limit /\ rest = [].
Proof.
  intro E. unfold sent. rewrite (run_search_cases _ _ E).
  destruct (cql_of request) as [cql | ]; [ | discriminate ].
  destruct (limit_of request) as [limit | ]; [ | discriminate ].
  destruct (String.eqb_spec cql "") as [Hblank | Hfull]; [ discriminate | ].
  simpl. intro H; injection H as <- <-.
  exists cql, limit. auto.
Qed.

Lemma sent_page_inv (request : CallToolRequest) (w : W)
  (first : HttpRequest) (rest : list HttpRequest) :
  tool request = "get_page_content" ->
  sent W respond (callTool request) w = first :: rest ->
  exists pageId,
    pageId_of request = Some pageId /\ pageId <> ""
    /\ first = page_request env pageId /\ rest = [].
Proof.
  intro E. unfold sent. rewrite (run_page_cases _ _ E).
  destruct (pageId_of request) as [pageId | ]; [ | discriminate ].
  destruct (String.eqb_spec pageId "") as [Hblank | Hfull]; [ discriminate | ].
  simpl. intro H; injection H as <- <-.
  exists pageId. auto.
Qed.

Lemma sent_update_inv (request : CallToolRequest) (w : W)
  (first : HttpRequest) (rest : list HttpRequest) :
  tool request = "update_page_content" ->
  sent W respond (callTool request) w = first :: rest ->
  exists pageId content title,
    pageId_of request = Some pageId /\ pageId <> ""
    /\ content_of request = Some content /\ content <> ""
    /\ title_of request = Some title
    /\ first = page_request env pageId
    /\ rest = match between NumberToString StringToNumber
                      pageId content title
                      (answer (fst (respond w (page_request env pageId)))) with
              | Put updatePayload => [update_request env pageId updatePayload]
              | _ => []
              end.
Proof.
  intro E. unfold sent. rewrite (run_update_cases _ _ E).
  destruct (pageId_of request) as [pageId | ]; [ | discriminate ].
  destruct (content_of request) as [content | ]; [ | discriminate ].
  destruct (title_of request) as [title | ]; [ | discriminate ].
  destruct (String.eqb_spec pageId "") as [Hblank | Hfull]; [ discriminate | ].
  destruct (String.eqb_spec content "") as [Hblank | Hfull'];
    [ discriminate | ].
  cbv zeta. intro H.
  exists pageId, content, title.
  repeat (split; [ solve [ auto ] | ]).
  destruct (between _ _ _ _ _ _); simpl in H; injection H as <- <-;
    split; reflexivity.
Qed.

Lemma sent_unknown_inv (request : CallToolRequest) (w : W) :
  ~ In (tool request) tool_names ->
  sent W respond (callTool request) w = [].
Proof.
  intro Hnot. unfold sent. rewrite (run_unknown _ _ Hnot). reflexivity.
Qed.

End WithEngine.

End DispatchFacts.

(** ** When String() comes out empty *)

Module CoercionFacts.
Import JS Http Server Reading.

Lemma append_empty (s t : string) : s ++ t = "" -> s = "" /\ t = "".
Proof.
  destruct s; simpl; [ auto | discriminate ].
Qed.

(** Two elements or more always leave a comma. *)
Lemma join_two_not_empty (a b : string) (rest : list string) :
  join "," (a :: b :: rest) <> "".
Proof.
  simpl. intro H.
  apply append_empty in H as [_ H].
  discriminate H.
Qed.

(** A traversal that succeeds keeps the length. *)
Lemma traverse_length {A B : Type} (f : A -> option B) (l : list A)
  (bs : list B) :
  traverse f l = Some bs -> List.length bs = List.length l.
Proof.
  revert bs; induction l as [ | a rest IH ]; intros bs; simpl.
  - intro H; injection H as <-. reflexivity.
  - destruct (f a) as [b | ]; [ | discriminate ].
    destruct (traverse f rest) as [bs' | ]; [ | discriminate ].
    intro H; injection H as <-. simpl. f_equal. apply IH. reflexivity.
Qed.

Section WithEngine.

Variable NumberToString : float -> string.

(** The engine prints at least one character for every number. *)
Hypothesis NumberToString_not_empty : forall x, NumberToString x <> "".

Lemma blank_renders_empty (v : value) :
  blank v -> ToString NumberToString v = Some "".
Proof.
  induction 1 as [ | | e He | e He IH ]; simpl; try reflexivity.
  - rewrite He; reflexivity.
  - rewrite IH. destruct (is_nullish e); reflexivity.
Qed.

Lemma renders_empty_blank (v : value) :
  ToString NumberToString v = Some "" -> blank v.
Proof.
  revert v. fix renders_empty_blank 1. intro v.
  destruct v as [ | | [ | ] | x | s | elems | props ]; simpl; intro H;
    try discriminate H.
  - exfalso. injection H as H. exact (NumberToString_not_empty x H).
  - injection H as ->. constructor.
  - destruct elems as [ | e [ | e' rest ] ].
    + constructor.
    + simpl in H.
      destruct (is_nullish e) eqn:He.
      * apply blank_nullish; exact He.
      * apply blank_nested, renders_empty_blank.
        destruct (ToString NumberToString e) as [s | ]; [ | discriminate H ].
        simpl in H. exact H.
    + exfalso.
      destruct (traverse _ (e :: e' :: rest)) as [parts | ] eqn:Hparts;
        [ | discriminate H ].
      apply traverse_length in Hparts.
      destruct parts as [ | a [ | b parts ] ]; try discriminate Hparts.
      simpl option_map in H. injection H as H.
      exact (join_two_not_empty _ _ _ H).
  - destruct (lookup "toString" props); discriminate H.
Qed.

Lemma ToString_empty_iff (v : value) :
  ToString NumberToString v = Some "" <-> blank v.
Proof.
  split; [ apply renders_empty_blank | apply blank_renders_empty ].
Qed.

End WithEngine.

(** A property that is not there reads [undefined], which [String] spells
    out: nine characters, not none. *)
Lemma absent_reads_undefined (NumberToString : float -> string)
  (request : CallToolRequest) (k : string) :
  argument request k = JUndefined ->
  ToString NumberToString (argument request k) = Some "undefined".
Proof. intros ->; reflexivity. Qed.

Lemma decimal_not_empty (n : Z) : decimal n <> "".
Proof.
  assert (Hu : forall p, NilEmpty.string_of_uint (Pos.to_uint p) <> "").
  { intros p H.
    apply (DecimalPos.Unsigned.to_uint_nonnil p).
    destruct (Pos.to_uint p); simpl in H; (reflexivity || discriminate H). }
  destruct n as [ | p | p ]; simpl.
  - discriminate.
  - apply Hu.
  - discriminate.
Qed.

Lemma sample_NumberToString_not_empty (x : float) :
  Sample.NumberToString x <> "".
Proof.
  unfold Sample.NumberToString.
  destruct (PrimFloat.is_nan x); [ discriminate | ].
  destruct (PrimFloat.is_infinity x).
  - destruct (PrimFloat.ltb x 0); discriminate.
  - apply decimal_not_empty.
Qed.

End CoercionFacts.

(** ** What update_page_content sends *)

Module PutFacts.
Import JS Http Server Reading RunFacts ClientFacts UpdateFacts DispatchFacts.
Import ConversionFacts.

Section WithEngine.

Variable NumberToString : float -> string.
Variable StringToNumber : string -> float.

Abbreviation between := (Reading.between NumberToString StringToNumber).
Abbreviation payload := (Reading.payload).
Abbreviation plus_ := (plus NumberToString StringToNumber).

(** [between] says [Put] only for a page without a truthy [error] whose
    [version.number] can be read and incremented, and the payload is built
    from that page. *)
Lemma between_Put (pageId content : string) (title : option string)
  (currentPage updatePayload : value) :
  between pageId content title currentPage = Put updatePayload ->
  truthy (field currentPage "error") = false
  /\ exists number next_number,
       get_prop (field currentPage "version") "number" = inr number
       /\ plus_ number (JNum 1) = Some next_number
       /\ updatePayload = payload pageId content title currentPage next_number.
Proof.
  unfold Reading.between.
  destruct (get_prop currentPage "error") as [e | err] eqn:He;
    [ discriminate | ].
  destruct (truthy err) eqn:Ht.
  { destruct (ToString NumberToString err); discriminate. }
  destruct (get_prop (field currentPage "version") "number") as [e | number];
    [ discriminate | ].
  destruct (plus_ number (JNum 1)) as [next_number | ] eqn:Hplus;
    [ | discriminate ].
  intro H; injection H as <-.
  split.
  - unfold field; rewrite He; exact Ht.
  - exists number, next_number. auto.
Qed.

(** [v.number] can be read unless [v] is [null] or [undefined]. *)
Lemma number_readable (v : value) :
  (exists number, get_prop v "number" = inr number) <-> is_nullish v = false.
Proof.
  destruct v; simpl; split; intro H; try reflexivity; try discriminate H;
    try match type of H with
        | exists _, _ => destruct H as [? H']; discriminate H'
        end;
    eauto.
Qed.

(** Where [between] goes on to the PUT. *)
Lemma between_Put_iff (pageId content : string) (title : option string)
  (currentPage : value) :
  (exists updatePayload,
      between pageId content title currentPage = Put updatePayload)
  <-> truthy (field currentPage "error") = false
      /\ exists number,
           get_prop (field currentPage "version") "number" = inr number
           /\ ToString NumberToString number <> None.
Proof.
  split.
  - intros [updatePayload Hb].
    apply between_Put in Hb as [Herror [number [next [Hnumber [Hplus _]]]]].
    split; [ exact Herror | ].
    exists number. split; [ exact Hnumber | ].
    intro Hthrows.
    apply (proj2 (plus_one_ToString NumberToString StringToNumber number))
      in Hthrows.
    rewrite Hthrows in Hplus. discriminate Hplus.
  - intros [Herror [number [Hnumber Hconverts]]].
    destruct (plus_ number (JNum 1)) as [next | ] eqn:Hplus.
    + unfold Reading.between.
      destruct currentPage; try discriminate Hnumber;
        cbn [get_prop]; unfold field in Herror; cbn [get_prop] in Herror;
        rewrite Herror, Hnumber, Hplus; eauto.
    + exfalso. apply Hconverts.
      apply (proj1 (plus_one_ToString NumberToString StringToNumber number)).
      exact Hplus.
Qed.

(** A page whose [error] is truthy stops the update there. *)
Lemma between_truthy_error (pageId content : string) (title : option string)
  (currentPage : value) :
  truthy (field currentPage "error") = true ->
  between pageId content title currentPage
  = match ToString NumberToString (field currentPage "error") with
    | Some rendered_error =>
        Abort (JObj [ ("error",
                       JStr ("Failed to get current page: "
                             ++ rendered_error)) ])
    | None => Crash conversion_error
    end.
Proof.
  unfold Reading.between, field.
  destruct (get_prop currentPage "error") as [e | err]; simpl.
  - discriminate.
  - intros ->; reflexivity.
Qed.

(** After a failed fetch the update stops with an error message: nothing to
    PUT, whatever the error was. *)
Lemma between_failure (pageId content : string) (title : option string)
  (rep : reply) (b : value) :
  failure rep = Some b ->
  exists m,
    match between pageId content title (answer rep) with
    | Abort v => v = JObj [ ("error", JStr m) ]
    | Crash e => caught e = JObj [ ("error", JStr m) ]
    | Put _ => False
    end.
Proof.
  intros Hfail.
  rewrite (answer_failure _ _ Hfail).
  unfold Reading.between; simpl.
  destruct (truthy b).
  - destruct (ToString NumberToString b); eexists; reflexivity.
  - eexists; reflexivity.
Qed.

Variable env : Env.
Variable W : Type.
Variable respond : W -> HttpRequest -> reply * W.

Abbreviation callTool := (Server.callTool NumberToString StringToNumber env).
Abbreviation sent := (Http.sent W respond).

(** Only update_page_content sends a PUT. *)
Lemma put_only_by_update (request : CallToolRequest) (w : W)
  (r : HttpRequest) :
  In r (sent (callTool request) w) -> verb r = PUT ->
  tool request = "update_page_content".
Proof.
  intros Hin Hput.
  destruct (tool_cases request) as [E | [E | [E | Hnot]]].
  - destruct (sent (callTool request) w) as [ | first rest ] eqn:Hsent;
      [ destruct Hin | ].
    destruct (sent_search_inv _ _ _ _ _ _ _ _ _ E Hsent)
      as [cql [limit [_ [_ [_ [-> ->]]]]]].
    destruct Hin as [<- | []]. discriminate Hput.
  - destruct (sent (callTool request) w) as [ | first rest ] eqn:Hsent;
      [ destruct Hin | ].
    destruct (sent_page_inv _ _ _ _ _ _ _ _ _ E Hsent)
      as [pageId [_ [_ [-> ->]]]].
    destruct Hin as [<- | []]. discriminate Hput.
  - exact E.
  - rewrite (sent_unknown_inv _ _ _ _ _ _ _ Hnot) in Hin. destruct Hin.
Qed.

(** Every PUT comes from an update whose conversions and validation went
    through, and carries a payload built from the fetched page. *)
Lemma put_of_update (request : CallToolRequest) (w : W) (r : HttpRequest) :
  In r (sent (callTool request) w) ->
  verb r = PUT ->
  exists pageId content title number next_number,
    tool request = "update_page_content"
    /\ pageId_of NumberToString request = Some pageId /\ pageId <> ""
    /\ content_of NumberToString request = Some content /\ content <> ""
    /\ title_of NumberToString request = Some title
    /\ sent (callTool request) w = [ page_request env pageId; r ]
    /\ truthy (field (answer (fst (respond w (page_request env pageId))))
                 "error") = false
    /\ get_prop (field (answer (fst (respond w (page_request env pageId))))
                   "version") "number" = inr number
    /\ plus_ number (JNum 1) = Some next_number
    /\ r = update_request env pageId
             (payload pageId content title
                (answer (fst (respond w (page_request env pageId))))
                next_number).
Proof.
  intros Hin Hput.
  pose proof (put_only_by_update _ _ _ Hin Hput) as E.
  destruct (sent (callTool request) w) as [ | first rest ] eqn:Hsent;
    [ destruct Hin | ].
  destruct (sent_update_inv _ _ _ _ _ _ _ _ _ E Hsent)
    as [pageId [content [title [Hid [Hfull [Hc [Hfull' [Ht [-> Hrest]]]]]]]]].
  destruct Hin as [<- | Hin]; [ discriminate Hput | ].
  destruct (between _ _ _ _) as [v | updatePayload | e] eqn:Hb;
    subst rest; try destruct Hin.
  - subst r.
    apply between_Put in Hb as [Herror [number [next [Hnumber [Hplus ->]]]]].
    exists pageId, content, title, number, next.
    repeat (split; [ solve [ auto ] | ]). reflexivity.
  - destruct H.
Qed.

End WithEngine.

End PutFacts.

(** ** The specification's claims *)

Import JS Http Server Reading.
Import RunFacts ClientFacts ConversionFacts UpdateFacts DispatchFacts.
Import PutFacts CoercionFacts.

Section Dispatch.

Variable NumberToString : float -> string.
Variable StringToNumber : string -> float.
Variable env : Env.
Variable W : Type.
Variable respond : W -> HttpRequest -> reply * W.

Abbreviation callTool := (Server.callTool NumberToString StringToNumber env).
Abbreviation text_content := (Server.text_content NumberToString).
Abbreviation run := (Http.run W respond).
Abbreviation outcome := (Http.outcome W respond).
Abbreviation sent := (Http.sent W respond).

(** C6.  A request whose tool name is not in the registry is failed by the
    dispatcher's default case: [Error "Unknown tool"] is thrown, nothing is
    returned as a result, and the remote is not contacted. *)
Theorem unknown_tool_fails_the_request (request : CallToolRequest) (w : W) :
  ~ In (tool request) tool_names ->
  run (callTool request) w = (Thrown (Error "Unknown tool"), [], w).
Proof.
  intro Hnot.
  rewrite (callTool_unknown _ _ _ _ Hnot).
  reflexivity.
Qed.

(** C3, as the code has it.  The registry lists exactly three tools, the
    dispatcher handles exactly the names the registry lists, and every one of
    the nine ticket and JQL names is neither registered nor handled. *)
Theorem registry_and_dispatcher_expose_three_tools :
  tool_names
  = ["execute_cql_search"; "get_page_content"; "update_page_content"]
  /\ (forall request : CallToolRequest,
        In (tool request) tool_names
        <-> callTool request <> Throw (Error "Unknown tool"))
  /\ Forall (fun n : string =>
               ~ In n tool_names
               /\ forall args,
                    callTool {| tool := n; arguments := args |}
                    = Throw (Error "Unknown tool"))
       ticket_tools.
Proof.
  split; [ reflexivity | split ].
  - intro request; split.
    + apply callTool_known.
    + intro Hhandled.
      destruct (in_dec string_dec (tool request) tool_names) as [Hin | Hnot].
      * exact Hin.
      * exfalso; apply Hhandled, callTool_unknown, Hnot.
  - unfold ticket_tools.
    repeat (apply Forall_cons || apply Forall_nil).
    all: assert (Hnot : forall n : string,
                          (if in_dec string_dec n tool_names
                           then true else false) = false ->
                          ~ In n tool_names)
      by (intros n Hd Hin; destruct (in_dec string_dec n tool_names);
          [ discriminate | contradiction ]).
    all: split; [ apply Hnot; reflexivity | ].
    all: intro args; apply callTool_unknown; apply Hnot; reflexivity.
Qed.

(** C1, at the failing input.  With no [cql] among the arguments,
    execute_cql_search throws nothing: it searches for the text "undefined"
    and returns the remote's answer.  get_page_content and
    update_page_content without [pageId] likewise fetch the page
    "undefined". *)
Theorem absent_required_argument_reaches_the_remote (w : W) :
  run (callTool {| tool := "execute_cql_search"; arguments := Some [] |}) w
  = (Returned
       (text_content
          (answer (fst (respond w (search_request env "undefined" 10))))),
     [search_request env "undefined" 10],
     snd (respond w (search_request env "undefined" 10)))
  /\ run (callTool {| tool := "get_page_content"; arguments := Some [] |}) w
     = (Returned
          (text_content
             (answer (fst (respond w (page_request env "undefined"))))),
        [page_request env "undefined"],
        snd (respond w (page_request env "undefined")))
  /\ exists rest,
       sent (callTool {| tool := "update_page_content";
                         arguments := Some [] |}) w
       = page_request env "undefined" :: rest.
Proof.
  split; [ | split ].
  - apply (run_search NumberToString StringToNumber env W respond
             {| tool := "execute_cql_search"; arguments := Some [] |} w
             "undefined" 10%float).
    + reflexivity.
    + reflexivity.
    + discriminate.
    + reflexivity.
  - apply (run_page NumberToString StringToNumber env W respond
             {| tool := "get_page_content"; arguments := Some [] |} w
             "undefined").
    + reflexivity.
    + reflexivity.
    + discriminate.
  - unfold Http.sent.
    rewrite (run_update NumberToString StringToNumber env W respond
               {| tool := "update_page_content"; arguments := Some [] |} w
               "undefined" "undefined" None);
      [ | reflexivity | reflexivity | discriminate | reflexivity
        | discriminate | reflexivity ].
    destruct (between _ _ _ _ _ _); simpl; eauto.
Qed.

End Dispatch.

Section SearchAndFetch.

Variable NumberToString : float -> string.
Variable StringToNumber : string -> float.
Variable env : Env.

Abbreviation callTool := (Server.callTool NumberToString StringToNumber env).
Abbreviation text_content := (Server.text_content NumberToString).
Abbreviation cql_of := (Reading.cql_of NumberToString).
Abbreviation limit_of := (Reading.limit_of NumberToString StringToNumber).
Abbreviation pageId_of := (Reading.pageId_of NumberToString).
Abbreviation content_of := (Reading.content_of NumberToString).
Abbreviation title_of := (Reading.title_of NumberToString).

(** C7, as the code has it.  When [String(cql)] gives a non-empty string
    and [Number(limit ?? 10)] a number, execute_cql_search issues exactly one
    request, a GET whose query parameters are that string and that number:
    the given string when [cql] is one, the given number when [limit] is one,
    10 when [limit] is absent.  When the remote answers 2xx, the body comes
    back, serialized, as the only content item, of type text. *)
Theorem search_issues_one_get (W : Type)
  (respond : W -> HttpRequest -> reply * W)
  (request : CallToolRequest) (w : W) (cql : string) (limit : float) :
  tool request = "execute_cql_search" ->
  cql_of request = Some cql -> cql <> "" ->
  limit_of request = Some limit ->
  exists get,
    sent W respond (callTool request) w = [get]
    /\ verb get = GET
    /\ params get = Some [ ("cql", JStr cql); ("limit", JNum limit) ]
    /\ (forall s, argument request "cql" = JStr s -> cql = s)
    /\ (forall n, argument request "limit" = JNum n -> limit = n)
    /\ (argument request "limit" = JUndefined -> limit = 10%float)
    /\ (forall d,
          success (fst (respond w get)) = Some d ->
          outcome W respond (callTool request) w
          = Returned {| content :=
                          [ {| type := "text";
                               text := JSON_stringify NumberToString d |} ] |}).
Proof.
  intros E Hcql Hfull Hlimit.
  exists (search_request env cql limit).
  unfold sent, outcome.
  rewrite (run_search _ _ _ _ _ _ _ _ _ E Hcql Hfull Hlimit).
  repeat split.
  - unfold Reading.cql_of in Hcql. intros s Hs. rewrite Hs in Hcql.
    injection Hcql as <-. reflexivity.
  - unfold Reading.limit_of in Hlimit. intros n Hn. rewrite Hn in Hlimit.
    injection Hlimit as <-. reflexivity.
  - unfold Reading.limit_of in Hlimit. intros Hn. rewrite Hn in Hlimit.
    injection Hlimit as <-. reflexivity.
  - intros d Hd. simpl. rewrite (answer_success _ _ Hd). reflexivity.
Qed.

(** C8.  Two get_page_content invocations with the same [pageId], run
    against remotes (or against one remote at two moments) that answer the
    page's GET alike, end alike: the same envelope with the same text, or the
    same failure. *)
Theorem get_page_content_repeats (W1 W2 : Type)
  (respond1 : W1 -> HttpRequest -> reply * W1)
  (respond2 : W2 -> HttpRequest -> reply * W2)
  (request1 request2 : CallToolRequest) (w1 : W1) (w2 : W2) :
  tool request1 = "get_page_content" ->
  tool request2 = "get_page_content" ->
  argument request1 "pageId" = argument request2 "pageId" ->
  (forall pageId,
      pageId_of request1 = Some pageId ->
      fst (respond1 w1 (page_request env pageId))
      = fst (respond2 w2 (page_request env pageId))) ->
  outcome W1 respond1 (callTool request1) w1
  = outcome W2 respond2 (callTool request2) w2.
Proof.
  intros E1 E2 Hsame Hreply.
  assert (Hid : pageId_of request2 = pageId_of request1)
    by (unfold Reading.pageId_of; rewrite Hsame; reflexivity).
  unfold outcome.
  rewrite (run_page_cases _ _ _ _ _ _ _ E1), (run_page_cases _ _ _ _ _ _ _ E2).
  rewrite Hid.
  destruct (pageId_of request1) as [pageId | ]; [ | reflexivity ].
  destruct (String.eqb pageId ""); [ reflexivity | ].
  simpl. rewrite (Hreply pageId eq_refl). reflexivity.
Qed.

End SearchAndFetch.

Section Validation.

Variable NumberToString : float -> string.
Variable StringToNumber : string -> float.
Variable env : Env.

Abbreviation callTool := (Server.callTool NumberToString StringToNumber env).
Abbreviation cql_of := (Reading.cql_of NumberToString).
Abbreviation limit_of := (Reading.limit_of NumberToString StringToNumber).
Abbreviation pageId_of := (Reading.pageId_of NumberToString).
Abbreviation content_of := (Reading.content_of NumberToString).
Abbreviation title_of := (Reading.title_of NumberToString).
Abbreviation converts := (Reading.converts NumberToString).

(** When each case throws one of its validation errors: every conversion
    went through and a checked string came out empty. *)
Lemma search_validation_iff (request : CallToolRequest) :
  tool request = "execute_cql_search" ->
  (exists m, callTool request = Throw (Error m))
  <-> cql_of request = Some "" /\ limit_of request <> None.
Proof.
  intro E. rewrite (callTool_search _ _ _ _ E).
  destruct (cql_of request) as [cql | ].
  - destruct (limit_of request) as [limit | ].
    + destruct (String.eqb_spec cql "") as [-> | Hfull]; split.
      * intros _. split; [ reflexivity | discriminate ].
      * eauto.
      * intros [m Hm]. unfold executeCQL, axios in Hm. discriminate Hm.
      * intros [Hcql _]. injection Hcql as ->. contradiction.
    + split.
      * intros [m Hm]. discriminate Hm.
      * intros [_ Hlimit]. contradiction.
  - split.
    + intros [m Hm]. discriminate Hm.
    + intros [Hcql _]. discriminate Hcql.
Qed.

Lemma page_validation_iff (request : CallToolRequest) :
  tool request = "get_page_content" ->
  (exists m, callTool request = Throw (Error m))
  <-> pageId_of request = Some "".
Proof.
  intro E. rewrite (callTool_page _ _ _ _ E).
  destruct (pageId_of request) as [pageId | ].
  - destruct (String.eqb_spec pageId "") as [-> | Hfull]; split.
    + reflexivity.
    + eauto.
    + intros [m Hm]. unfold getPageContent, axios in Hm. discriminate Hm.
    + intro Hid. injection Hid as ->. contradiction.
  - split.
    + intros [m Hm]. discriminate Hm.
    + discriminate.
Qed.

Lemma update_validation_iff (request : CallToolRequest) :
  tool request = "update_page_content" ->
  (exists m, callTool request = Throw (Error m))
  <-> pageId_of request <> None /\ content_of request <> None
      /\ title_of request <> None
      /\ (pageId_of request = Some "" \/ content_of request = Some "").
Proof.
  intro E. rewrite (callTool_update _ _ _ _ E).
  destruct (pageId_of request) as [pageId | ];
    [ | split; [ intros [m Hm]; discriminate Hm | intros [H _]; contradiction ] ].
  destruct (content_of request) as [content | ];
    [ | split; [ intros [m Hm]; discriminate Hm
               | intros [_ [H _]]; contradiction ] ].
  destruct (title_of request) as [title | ];
    [ | split; [ intros [m Hm]; discriminate Hm
               | intros [_ [_ [H _]]]; contradiction ] ].
  destruct (String.eqb_spec pageId "") as [-> | Hid].
  { split; [ intros _ | eauto ].
    repeat (split; [ discriminate | ]). left; reflexivity. }
  destruct (String.eqb_spec content "") as [-> | Hcontent].
  { split; [ intros _ | eauto ].
    repeat (split; [ discriminate | ]). right; reflexivity. }
  split.
  - intros [m Hm].
    unfold updatePageContent, getPageContent, axios in Hm. discriminate Hm.
  - intros [_ [_ [_ [H | H]]]]; injection H as ->; contradiction.
Qed.

(** The engine prints at least one character for every number. *)
Hypothesis NumberToString_not_empty : forall x, NumberToString x <> "".

(** C9, as the code has it.  An absent argument reads [undefined], which
    [String] turns into "undefined": not a blank value, so its check does not
    fire.  The handler throws a validation error, before calling the remote,
    exactly when every argument its tool declares can be converted and one
    of those the registry marks required is blank (the empty string, the
    empty array, a one-element array around [null] or around a blank).
    With [cql] or [pageId] absent and the other arguments convertible, the
    call goes out with "undefined" in its place, for update_page_content as
    long as the other required argument is not blank; with [content] absent
    every PUT that follows carries "undefined" as the new body. *)
Theorem absent_argument_passes_validation (W : Type)
  (respond : W -> HttpRequest -> reply * W)
  (request : CallToolRequest) (w : W) :
  (forall k,
      argument request k = JUndefined ->
      ToString NumberToString (argument request k) = Some "undefined"
      /\ ~ blank (argument request k))
  /\ (forall d,
        In d listTools -> name d = tool request ->
        (exists m, callTool request = Throw (Error m))
        <-> Forall (fun p => converts (argument request (prop_name p)))
              (properties d)
            /\ Exists (fun k => blank (argument request k)) (required d))
  /\ (tool request = "execute_cql_search" ->
      argument request "cql" = JUndefined ->
      forall limit,
        limit_of request = Some limit ->
        sent W respond (callTool request) w
        = [search_request env "undefined" limit])
  /\ (tool request = "get_page_content" ->
      argument request "pageId" = JUndefined ->
      sent W respond (callTool request) w = [page_request env "undefined"])
  /\ (tool request = "update_page_content" ->
      argument request "pageId" = JUndefined ->
      ~ blank (argument request "content") ->
      converts (argument request "content") ->
      converts (argument request "title") ->
      exists rest,
        sent W respond (callTool request) w
        = page_request env "undefined" :: rest)
  /\ (tool request = "update_page_content" ->
      argument request "content" = JUndefined ->
      ~ blank (argument request "pageId") ->
      converts (argument request "title") ->
      forall pageId,
        pageId_of request = Some pageId ->
        exists rest,
          sent W respond (callTool request) w
          = page_request env pageId :: rest
          /\ forall r,
               In r rest ->
               exists updatePayload,
                 verb r = PUT
                 /\ body r = Some updatePayload
                 /\ field (field (field updatePayload "body") "storage")
                      "value"
                    = JStr "undefined").
Proof.
  assert (Hblank : forall v, ToString NumberToString v = Some "" <-> blank v)
    by (apply ToString_empty_iff, NumberToString_not_empty).
  assert (Htitle : converts (argument request "title") ->
                   exists title, title_of request = Some title).
  { intro Hc. destruct (title_of request) as [title | ] eqn:Ht; eauto.
    exfalso. apply Hc. apply (title_of_None NumberToString). exact Ht. }
  repeat apply conj.
  - intros k Hk. split.
    + apply absent_reads_undefined, Hk.
    + rewrite Hk. intro Hb. inversion Hb.
  - intros d Hd Hname.
    unfold listTools in Hd.
    destruct Hd as [<- | [<- | [<- | []]]]; simpl in Hname; symmetry in Hname;
      simpl required; simpl properties; cbn [prop_name].
    + rewrite (search_validation_iff _ Hname).
      rewrite !Forall_cons_iff, Forall_nil_iff, Exists_cons, Exists_nil.
      rewrite <- Hblank.
      pose proof (limit_of_None NumberToString StringToNumber request)
        as Hlimit.
      unfold Reading.converts, Reading.cql_of. cbn [prop_name].
      intuition congruence.
    + rewrite (page_validation_iff _ Hname).
      rewrite !Forall_cons_iff, Forall_nil_iff, Exists_cons, Exists_nil.
      rewrite <- Hblank.
      unfold Reading.converts, Reading.pageId_of. cbn [prop_name].
      intuition congruence.
    + rewrite (update_validation_iff _ Hname).
      rewrite !Forall_cons_iff, Forall_nil_iff, !Exists_cons, Exists_nil.
      rewrite <- !Hblank.
      pose proof (title_of_None NumberToString request) as Ht.
      unfold Reading.converts, Reading.pageId_of, Reading.content_of.
      cbn [prop_name].
      intuition congruence.
  - intros E Hk limit Hlimit. unfold sent.
    rewrite (run_search _ _ _ _ _ _ _ "undefined" limit E);
      [ reflexivity | | discriminate | exact Hlimit ].
    unfold Reading.cql_of; rewrite Hk; reflexivity.
  - intros E Hk. unfold sent.
    rewrite (run_page _ _ _ _ _ _ _ "undefined" E);
      [ reflexivity | | discriminate ].
    unfold Reading.pageId_of; rewrite Hk; reflexivity.
  - intros E Hk Hfull Hconverts Hc.
    destruct (Htitle Hc) as [title Ht].
    destruct (content_of request) as [content | ] eqn:Hcontent;
      [ | exfalso; apply Hconverts; exact Hcontent ].
    unfold sent.
    rewrite (run_update _ _ _ _ _ _ _ "undefined" content title E);
      [ | unfold Reading.pageId_of; rewrite Hk; reflexivity
        | discriminate
        | exact Hcontent
        | intros ->; apply Hfull, Hblank, Hcontent
        | exact Ht ].
    destruct (between _ _ _ _ _ _); simpl; eauto.
  - intros E Hk Hfull Hc pageId Hid.
    destruct (Htitle Hc) as [title Ht].
    unfold sent.
    rewrite (run_update _ _ _ _ _ _ _ pageId "undefined" title E);
      [ | exact Hid
        | intros ->; apply Hfull, Hblank, Hid
        | unfold Reading.content_of; rewrite Hk; reflexivity
        | discriminate
        | exact Ht ].
    destruct (between _ _ _ _ _ _) as [v | updatePayload | e] eqn:Hb;
      simpl; eexists; (split; [ reflexivity | ]); intros r Hr;
      try destruct Hr as [ <- | [] ]; try destruct Hr.
    apply between_Put in Hb as [_ [number [next [_ [_ ->]]]]].
    eexists; repeat split.
Qed.

End Validation.

Section Update.

Variable NumberToString : float -> string.
Variable StringToNumber : string -> float.
Variable env : Env.
Variable W : Type.
Variable respond : W -> HttpRequest -> reply * W.

Abbreviation callTool := (Server.callTool NumberToString StringToNumber env).
Abbreviation text_content := (Server.text_content NumberToString).
Abbreviation pageId_of := (Reading.pageId_of NumberToString).
Abbreviation content_of := (Reading.content_of NumberToString).
Abbreviation title_of := (Reading.title_of NumberToString).
Abbreviation cql_of := (Reading.cql_of NumberToString).
Abbreviation limit_of := (Reading.limit_of NumberToString StringToNumber).
Abbreviation sent := (Http.sent W respond).
Abbreviation outcome := (Http.outcome W respond).

(** The title that goes into the payload. *)
Lemma payload_title (pageId content : string) (title : option string)
  (currentPage next_number : value) :
  field (payload pageId content title currentPage next_number) "title"
  = or_else (of_option title) (field currentPage "title").
Proof. reflexivity. Qed.

(** A title that was not given is passed on as [undefined]. *)
Lemma title_of_absent (request : CallToolRequest) (title : option string) :
  truthy (argument request "title") = false ->
  title_of request = Some title -> title = None.
Proof.
  unfold Reading.title_of. intros ->. intro H; injection H as <-. reflexivity.
Qed.

(** C2.  When the fetch answers 2xx with a page whose [version.number] is
    the number [n], every PUT the invocation sends has a body whose
    [version.number] is [n + 1], whose [type] and [space] are the page's, and
    whose [title] is the page's when no [title] argument was given.  Such a
    PUT is indeed sent, right after the fetch, when [pageId] and [content]
    convert to non-empty strings, the [title] argument converts and the page
    has no truthy [error]. *)
Theorem update_put_body_follows_fetched_page
  (request : CallToolRequest) (w : W) (pageId : string) (st : Z)
  (props vprops : list (string * value)) (n : float) :
  tool request = "update_page_content" ->
  pageId_of request = Some pageId ->
  fst (respond w (page_request env pageId)) = HttpReply st (JObj props) ->
  validateStatus st = true ->
  lookup "version" props = Some (JObj vprops) ->
  lookup "number" vprops = Some (JNum n) ->
  (forall r,
      In r (sent (callTool request) w) -> verb r = PUT ->
      exists updatePayload,
        body r = Some updatePayload
        /\ field (field updatePayload "version") "number" = JNum (n + 1)
        /\ field updatePayload "type" = field (JObj props) "type"
        /\ field updatePayload "space" = field (JObj props) "space"
        /\ (argument request "title" = JUndefined ->
            field updatePayload "title" = field (JObj props) "title"))
  /\ (pageId <> "" ->
      forall content title,
        content_of request = Some content -> content <> "" ->
        title_of request = Some title ->
        truthy (field (JObj props) "error") = false ->
        exists put,
          sent (callTool request) w = [page_request env pageId; put]
          /\ verb put = PUT).
Proof.
  intros E Hid Hreply Hst Hversion Hnumber.
  assert (Hpage : answer (fst (respond w (page_request env pageId)))
                  = JObj props)
    by (rewrite Hreply; simpl; rewrite Hst; reflexivity).
  assert (Hread : get_prop (field (JObj props) "version") "number"
                  = inr (JNum n))
    by (unfold field; simpl; rewrite Hversion; simpl; rewrite Hnumber;
        reflexivity).
  split.
  - intros r Hin Hput.
    destruct (put_of_update _ _ _ _ _ _ _ _ Hin Hput)
      as [pageId' [content [title [number [next H]]]]].
    destruct H as [_ [Hid' [_ [_ [_ [Htitle [_ [_ [Hnum [Hplus ->]]]]]]]]]].
    rewrite Hid in Hid'. injection Hid' as <-.
    rewrite Hpage in *. rewrite Hread in Hnum. injection Hnum as <-.
    rewrite plus_one_number in Hplus. injection Hplus as <-.
    eexists; split; [ reflexivity | ].
    repeat split.
    intro Habsent. rewrite payload_title.
    rewrite (title_of_absent request title); [ reflexivity | | exact Htitle ].
    rewrite Habsent. reflexivity.
  - intros Hfull content title Hcontent Hfull' Htitle Herror.
    unfold Http.sent.
    rewrite (run_update _ _ _ _ _ _ _ pageId content title E
               Hid Hfull Hcontent Hfull' Htitle).
    rewrite Hpage. unfold between.
    unfold field in Herror. cbn [get_prop] in *.
    rewrite Herror, Hread, plus_one_number.
    eexists; split; reflexivity.
Qed.

(** C10.  With [title] given as the empty string, every PUT the invocation
    sends carries the fetched page's title; and whatever [title] is, a PUT's
    title is the empty string only if the fetched page's already was. *)
Theorem empty_title_keeps_current_title
  (request : CallToolRequest) (w : W) (r : HttpRequest) :
  tool request = "update_page_content" ->
  In r (sent (callTool request) w) ->
  verb r = PUT ->
  exists pageId updatePayload,
    pageId_of request = Some pageId
    /\ body r = Some updatePayload
    /\ (argument request "title" = JStr "" ->
        field updatePayload "title"
        = field (answer (fst (respond w (page_request env pageId)))) "title")
    /\ (field updatePayload "title" = JStr "" ->
        field (answer (fst (respond w (page_request env pageId)))) "title"
        = JStr "").
Proof.
  intros E Hin Hput.
  destruct (put_of_update _ _ _ _ _ _ _ _ Hin Hput)
    as [pageId [content [title [number [next H]]]]].
  destruct H as [_ [Hid [_ [_ [_ [Htitle [_ [_ [_ [_ ->]]]]]]]]]].
  exists pageId. eexists.
  split; [ exact Hid | ].
  split; [ reflexivity | ].
  rewrite payload_title. split.
  - intro Hempty.
    rewrite (title_of_absent request title); [ reflexivity | | exact Htitle ].
    rewrite Hempty. reflexivity.
  - unfold Reading.title_of in Htitle. unfold or_else.
    destruct title as [s | ]; simpl.
    + destruct (String.eqb_spec s "") as [-> | Hs]; simpl.
      * auto.
      * intro H; injection H as ->. contradiction.
    + auto.
Qed.

End Update.

Section Failures.

Variable NumberToString : float -> string.
Variable StringToNumber : string -> float.
Variable env : Env.
Variable W : Type.
Variable respond : W -> HttpRequest -> reply * W.

Abbreviation callTool := (Server.callTool NumberToString StringToNumber env).
Abbreviation text_content := (Server.text_content NumberToString).
Abbreviation pageId_of := (Reading.pageId_of NumberToString).
Abbreviation content_of := (Reading.content_of NumberToString).
Abbreviation title_of := (Reading.title_of NumberToString).
Abbreviation cql_of := (Reading.cql_of NumberToString).
Abbreviation limit_of := (Reading.limit_of NumberToString StringToNumber).
Abbreviation sent := (Http.sent W respond).
Abbreviation outcome := (Http.outcome W respond).

(** Whatever is thrown across the tool boundary is thrown before the remote
    was contacted. *)
Lemma thrown_only_before_calls (request : CallToolRequest) (w : W)
  (e : exn) :
  outcome (callTool request) w = Thrown e ->
  sent (callTool request) w = [].
Proof.
  unfold Http.outcome, Http.sent.
  destruct (tool_cases request) as [E | [E | [E | Hnot]]].
  - rewrite (run_search_cases _ _ _ _ _ _ _ E).
    destruct (cql_of request) as [cql | ]; [ | reflexivity ].
    destruct (limit_of request) as [limit | ]; [ | reflexivity ].
    destruct (String.eqb cql ""); [ reflexivity | discriminate ].
  - rewrite (run_page_cases _ _ _ _ _ _ _ E).
    destruct (pageId_of request) as [pageId | ]; [ | reflexivity ].
    destruct (String.eqb pageId ""); [ reflexivity | discriminate ].
  - rewrite (run_update_cases _ _ _ _ _ _ _ E).
    destruct (pageId_of request) as [pageId | ]; [ | reflexivity ].
    destruct (content_of request) as [content | ]; [ | reflexivity ].
    destruct (title_of request) as [title | ]; [ | reflexivity ].
    destruct (String.eqb pageId ""); [ reflexivity | ].
    destruct (String.eqb content ""); [ reflexivity | ].
    cbv zeta. destruct (between _ _ _ _ _ _); discriminate.
  - rewrite (run_unknown _ _ _ _ _ _ _ Hnot). reflexivity.
Qed.

(** What update_page_content returns once its fetch has failed. *)
Lemma update_after_failed_fetch (request : CallToolRequest) (w : W)
  (fetch : HttpRequest) (rest : list HttpRequest) (b : value) :
  tool request = "update_page_content" ->
  sent (callTool request) w = fetch :: rest ->
  failure (fst (respond w fetch)) = Some b ->
  rest = []
  /\ (exists m,
        outcome (callTool request) w
        = Returned (text_content (JObj [("error", JStr m)])))
  /\ (forall s,
        b = JStr s -> s <> "" ->
        outcome (callTool request) w
        = Returned
            (text_content
               (JObj [("error",
                       JStr ("Failed to get current page: " ++ s))]))).
Proof.
  intros E Hsent Hb.
  destruct (sent_update_inv _ _ _ _ _ _ _ _ _ E Hsent)
    as [pageId [content [title [Hid [Hfull [Hc [Hfull' [Ht [-> Hrest]]]]]]]]].
  unfold Http.outcome.
  rewrite (run_update _ _ _ _ _ _ _ pageId content title E
             Hid Hfull Hc Hfull' Ht).
  cbv zeta.
  destruct (between_failure NumberToString StringToNumber
              pageId content title _ _ Hb) as [m Hm].
  split; [ | split ].
  - rewrite Hrest.
    destruct (between _ _ _ _ _ _); [ reflexivity | destruct Hm | reflexivity ].
  - exists m.
    destruct (between _ _ _ _ _ _);
      [ rewrite Hm; reflexivity | destruct Hm | rewrite Hm; reflexivity ].
  - intros s -> Hs.
    rewrite (between_truthy_error NumberToString StringToNumber);
      rewrite (answer_failure _ _ Hb).
    + reflexivity.
    + apply truthy_string, Hs.
Qed.

(** C4, as the code has it.  Whatever is thrown across the tool boundary
    is thrown before any call, and the remote client itself always returns a
    value.  A failed call of execute_cql_search or get_page_content, and a
    failed PUT of update_page_content, come back as [{error: b}] in the text
    item, [b] being the response body when there was a response and the
    exception's message when there was none.  A failed fetch inside
    update_page_content comes back as [{error: m}] for a text [m] that is
    not [b]: for a message [b] it is "Failed to get current page: "
    followed by [b]. *)
Theorem remote_failure_comes_back_as_data
  (request : CallToolRequest) (w : W) :
  (forall e,
      outcome (callTool request) w = Thrown e ->
      sent (callTool request) w = [])
  /\ ((forall cql limit,
         exists v, outcome (executeCQL env cql limit) w = Returned v)
      /\ (forall pageId,
            exists v, outcome (getPageContent env pageId) w = Returned v)
      /\ (forall pageId content title,
            exists v,
              outcome
                (updatePageContent NumberToString StringToNumber env
                   pageId content title) w
              = Returned v))
  /\ (tool request = "execute_cql_search"
      \/ tool request = "get_page_content" ->
      forall get rest b,
        sent (callTool request) w = get :: rest ->
        failure (fst (respond w get)) = Some b ->
        outcome (callTool request) w
        = Returned (text_content (JObj [("error", b)])))
  /\ (tool request = "update_page_content" ->
      forall fetch put b,
        sent (callTool request) w = [fetch; put] ->
        failure (fst (respond (snd (respond w fetch)) put)) = Some b ->
        outcome (callTool request) w
        = Returned (text_content (JObj [("error", b)])))
  /\ (tool request = "update_page_content" ->
      forall fetch rest b,
        sent (callTool request) w = fetch :: rest ->
        failure (fst (respond w fetch)) = Some b ->
        (exists m,
           outcome (callTool request) w
           = Returned (text_content (JObj [("error", JStr m)])))
        /\ (forall s,
              b = JStr s -> s <> "" ->
              outcome (callTool request) w
              = Returned
                  (text_content
                     (JObj [("error",
                             JStr ("Failed to get current page: "
                                   ++ s))])))).
Proof.
  split; [ apply thrown_only_before_calls | ].
  split; [ apply remote_client_never_throws | ].
  split; [ | split ].
  - intros [E | E] get rest b Hsent Hb.
    + destruct (sent_search_inv _ _ _ _ _ _ _ _ _ E Hsent)
        as [cql [limit [Hcql [Hfull [Hlimit [-> _]]]]]].
      unfold Http.outcome.
      rewrite (run_search _ _ _ _ _ _ _ cql limit E Hcql Hfull Hlimit).
      simpl. rewrite (answer_failure _ _ Hb). reflexivity.
    + destruct (sent_page_inv _ _ _ _ _ _ _ _ _ E Hsent)
        as [pageId [Hid [Hfull [-> _]]]].
      unfold Http.outcome.
      rewrite (run_page _ _ _ _ _ _ _ pageId E Hid Hfull).
      simpl. rewrite (answer_failure _ _ Hb). reflexivity.
  - intros E fetch put b Hsent Hb.
    destruct (sent_update_inv _ _ _ _ _ _ _ _ _ E Hsent)
      as [pageId [content [title [Hid [Hfull [Hc [Hfull' [Ht [-> Hrest]]]]]]]]].
    unfold Http.outcome.
    rewrite (run_update _ _ _ _ _ _ _ pageId content title E
               Hid Hfull Hc Hfull' Ht).
    cbv zeta.
    destruct (between _ _ _ _ _ _) as [v | updatePayload | e];
      try discriminate Hrest.
    injection Hrest as ->. simpl.
    rewrite (answer_failure _ _ Hb). reflexivity.
  - intros E fetch rest b Hsent Hb.
    exact (proj2 (update_after_failed_fetch _ _ _ _ _ E Hsent Hb)).
Qed.

(** C5, as the code has it.  When the fetch of update_page_content fails, no
    PUT is sent: the fetch is the only request.  What is returned is an
    error value holding a text, not the fetch's error itself: for a fetch
    error that is a message, the message behind the words "Failed to get
    current page: ". *)
Theorem failed_fetch_aborts_the_update
  (request : CallToolRequest) (w : W) (fetch : HttpRequest)
  (rest : list HttpRequest) (b : value) :
  tool request = "update_page_content" ->
  sent (callTool request) w = fetch :: rest ->
  failure (fst (respond w fetch)) = Some b ->
  rest = []
  /\ verb fetch = GET
  /\ (exists m,
        outcome (callTool request) w
        = Returned (text_content (JObj [("error", JStr m)])))
  /\ (forall s,
        b = JStr s -> s <> "" ->
        outcome (callTool request) w
        = Returned
            (text_content
               (JObj [("error",
                       JStr ("Failed to get current page: " ++ s))]))).
Proof.
  intros E Hsent Hb.
  destruct (update_after_failed_fetch _ _ _ _ _ E Hsent Hb)
    as [Hrest [Hvalue Hmessage]].
  split; [ exact Hrest | ].
  split; [ | split; [ exact Hvalue | exact Hmessage ] ].
  destruct (sent_update_inv _ _ _ _ _ _ _ _ _ E Hsent)
    as [pageId [_ [_ [_ [_ [_ [_ [_ [-> _]]]]]]]]].
  reflexivity.
Qed.

End Failures.

(** ** The claims on concrete requests *)

Lemma unknown_tool_example :
  ~ In "delete_page" tool_names
  /\ Sample.call {| tool := "delete_page"; arguments := None |} []
     = (Thrown (Error "Unknown tool"), [], []).
Proof.
  assert (Hnot : ~ In "delete_page" tool_names)
    by (simpl; intros [H | [H | [H | []]]]; discriminate H).
  split; [ exact Hnot | ].
  exact (unknown_tool_fails_the_request
           Sample.NumberToString Sample.StringToNumber Sample.env
           (list reply) Sample.scripted
           {| tool := "delete_page"; arguments := None |} [] Hnot).
Defined.

(** C3 fails on the code: execute_jql, the first tool of the table after the
    page tools, is in no registry entry, and calling it ends in the default
    case. *)
Lemma execute_jql_is_not_exposed :
  In "execute_jql" ticket_tools
  /\ ~ In "execute_jql" tool_names
  /\ Sample.call {| tool := "execute_jql";
                    arguments := Some [ ("jql", JStr "project = DOC") ] |} []
     = (Thrown (Error "Unknown tool"), [], []).
Proof.
  split; [ left; reflexivity | split ].
  - simpl; intros [H | [H | [H | []]]]; discriminate H.
  - reflexivity.
Qed.

(** C7 fails on the code in three places: a [cql] that is present but empty
    is turned away before any GET; so is a [limit] that [Number] cannot
    convert, with a TypeError; and when the GET is answered 404 the text
    item holds the body wrapped in [{error: ...}], not the body. *)
Lemma search_without_get_or_without_body :
  lookup "cql" [ ("cql", JStr ""); ("limit", JNum 5) ] = Some (JStr "")
  /\ Sample.call (Sample.search [ ("cql", JStr ""); ("limit", JNum 5) ])
       [ HttpReply 200 (JObj [ ("results", JArr []) ]) ]
     = (Thrown (Error "CQL query is required"), [],
        [ HttpReply 200 (JObj [ ("results", JArr []) ]) ])
  /\ Sample.call (Sample.search [ ("cql", JStr "type=page");
                                  ("limit", Sample.stubborn) ])
       [ HttpReply 200 (JObj [ ("results", JArr []) ]) ]
     = (Thrown (TypeError "Cannot convert object to primitive value"), [],
        [ HttpReply 200 (JObj [ ("results", JArr []) ]) ])
  /\ Sample.call (Sample.search [ ("cql", JStr "type=page");
                                  ("limit", JNum 5) ])
       [ HttpReply 404 Sample.not_found ]
     = (Returned
          (Server.text_content Sample.NumberToString
             (JObj [ ("error", Sample.not_found) ])),
        [ search_request Sample.env "type=page" 5 ], [])
  /\ Server.text_content Sample.NumberToString
       (JObj [ ("error", Sample.not_found) ])
     <> Server.text_content Sample.NumberToString Sample.not_found.
Proof.
  split; [ reflexivity | ].
  split; [ reflexivity | ].
  split; [ reflexivity | ].
  split; [ reflexivity | ].
  vm_compute. discriminate.
Qed.

Lemma search_type_page_limit_5 :
  exists get,
    Http.sent (list reply) Sample.scripted
      (Sample.callTool
         (Sample.search [ ("cql", JStr "type=page"); ("limit", JNum 5) ]))
      [ HttpReply 200 (JObj [ ("results", JArr []); ("size", JNum 0) ]) ]
    = [get]
    /\ verb get = GET
    /\ params get = Some [ ("cql", JStr "type=page"); ("limit", JNum 5) ]
    /\ Http.outcome (list reply) Sample.scripted
         (Sample.callTool
            (Sample.search [ ("cql", JStr "type=page"); ("limit", JNum 5) ]))
         [ HttpReply 200 (JObj [ ("results", JArr []); ("size", JNum 0) ]) ]
       = Returned
           {| content :=
                [ {| type := "text";
                     text := JSON_stringify Sample.NumberToString
                               (JObj [ ("results", JArr []);
                                       ("size", JNum 0) ]) |} ] |}.
Proof.
  assert (Hcql : "type=page" <> "") by discriminate.
  destruct (search_issues_one_get
              Sample.NumberToString Sample.StringToNumber Sample.env
              (list reply) Sample.scripted
              (Sample.search [ ("cql", JStr "type=page"); ("limit", JNum 5) ])
              [ HttpReply 200 (JObj [ ("results", JArr []);
                                      ("size", JNum 0) ]) ]
              "type=page" 5%float
              eq_refl eq_refl Hcql eq_refl)
    as [get [Hsent [Hverb [Hparams [_ [_ [_ Hbody]]]]]]].
  exists get.
  split; [ exact Hsent | ].
  split; [ exact Hverb | ].
  split; [ exact Hparams | ].
  apply Hbody. reflexivity.
Defined.

Lemma same_page_twice :
  Http.outcome (list reply) Sample.scripted
    (Sample.callTool (Sample.fetch [ ("pageId", JStr "12345") ]))
    [ HttpReply 200 Sample.page; HttpReply 200 Sample.page ]
  = Http.outcome (list reply) Sample.scripted
      (Sample.callTool (Sample.fetch [ ("pageId", JStr "12345") ]))
      [ HttpReply 200 Sample.page ].
Proof.
  exact (get_page_content_repeats
           Sample.NumberToString Sample.StringToNumber Sample.env
           (list reply) (list reply) Sample.scripted Sample.scripted
           (Sample.fetch [ ("pageId", JStr "12345") ])
           (Sample.fetch [ ("pageId", JStr "12345") ])
           [ HttpReply 200 Sample.page; HttpReply 200 Sample.page ]
           [ HttpReply 200 Sample.page ]
           eq_refl eq_refl eq_refl (fun pageId _ => eq_refl)).
Defined.

(** C9 fails on the code in three places: an empty array is not the empty
    string, yet it triggers the validation failure; with [pageId] absent but
    [content] empty, update_page_content makes no call at all; and with
    [cql] absent and a [limit] that [Number] cannot convert, the search ends
    in a TypeError before any call. *)
Lemma blank_arguments_beyond_the_empty_string :
  Sample.call (Sample.search [ ("cql", JArr []) ])
    [ HttpReply 200 (JObj [ ("results", JArr []) ]) ]
  = (Thrown (Error "CQL query is required"), [],
     [ HttpReply 200 (JObj [ ("results", JArr []) ]) ])
  /\ JArr [] <> JStr ""
  /\ argument (Sample.update [ ("content", JStr "") ]) "pageId" = JUndefined
  /\ Sample.call (Sample.update [ ("content", JStr "") ])
       [ HttpReply 200 Sample.page ]
     = (Thrown (Error "Content is required"), [],
        [ HttpReply 200 Sample.page ])
  /\ argument (Sample.search [ ("limit", Sample.stubborn) ]) "cql"
     = JUndefined
  /\ Sample.call (Sample.search [ ("limit", Sample.stubborn) ])
       [ HttpReply 200 (JObj [ ("results", JArr []) ]) ]
     = (Thrown (TypeError "Cannot convert object to primitive value"), [],
        [ HttpReply 200 (JObj [ ("results", JArr []) ]) ]).
Proof.
  split; [ reflexivity | ].
  split; [ discriminate | ].
  repeat split.
Qed.

Lemma search_without_cql :
  ToString Sample.NumberToString
    (argument (Sample.search [ ("limit", JNum 5) ]) "cql") = Some "undefined"
  /\ ~ (exists m,
          Sample.callTool (Sample.search [ ("limit", JNum 5) ])
          = Throw (Error m))
  /\ Http.sent (list reply) Sample.scripted
       (Sample.callTool (Sample.search [ ("limit", JNum 5) ]))
       [ HttpReply 200 (JObj [ ("results", JArr []) ]) ]
     = [ search_request Sample.env "undefined" 5 ].
Proof.
  destruct (absent_argument_passes_validation
              Sample.NumberToString Sample.StringToNumber Sample.env
              sample_NumberToString_not_empty
              (list reply) Sample.scripted
              (Sample.search [ ("limit", JNum 5) ])
              [ HttpReply 200 (JObj [ ("results", JArr []) ]) ])
    as [Habsent [Hthrows [Hsearch _]]].
  split; [ apply Habsent; reflexivity | ].
  split.
  - intro Hm.
    apply (Hthrows _ (or_introl eq_refl) eq_refl) in Hm as [_ Hblank].
    apply Exists_cons in Hblank as [Hblank | Hblank]; inversion Hblank.
  - apply Hsearch; reflexivity.
Defined.

Lemma update_page_version_3 :
  exists put updatePayload,
    Http.sent (list reply) Sample.scripted
      (Sample.callTool
         (Sample.update [ ("pageId", JStr "12345");
                        ("content", JStr "<p>Hello</p>") ]))
      [ HttpReply 200 Sample.page; HttpReply 200 Sample.page ]
    = [ page_request Sample.env "12345"; put ]
    /\ verb put = PUT
    /\ body put = Some updatePayload
    /\ field (field updatePayload "version") "number" = JNum 4
    /\ field updatePayload "type" = JStr "page"
    /\ field updatePayload "space" = JObj [ ("key", JStr "DOC") ]
    /\ field updatePayload "title" = JStr "T".
Proof.
  destruct (update_put_body_follows_fetched_page
              Sample.NumberToString Sample.StringToNumber Sample.env
              (list reply) Sample.scripted
              (Sample.update [ ("pageId", JStr "12345");
                             ("content", JStr "<p>Hello</p>") ])
              [ HttpReply 200 Sample.page; HttpReply 200 Sample.page ]
              "12345" 200%Z
              [ ("id", JStr "12345");
                ("type", JStr "page");
                ("title", JStr "T");
                ("space", JObj [ ("key", JStr "DOC") ]);
                ("version", JObj [ ("number", JNum 3) ]) ]
              [ ("number", JNum 3) ] 3%float
              eq_refl eq_refl eq_refl eq_refl eq_refl eq_refl)
    as [Hputs Hsent].
  destruct (Hsent ltac:(discriminate) "<p>Hello</p>" None
              eq_refl ltac:(discriminate) eq_refl eq_refl)
    as [put [Hsent' Hverb]].
  destruct (Hputs put) as [updatePayload [Hbody [Hn [Ht [Hs Htitle]]]]];
    [ rewrite Hsent'; right; left; reflexivity | exact Hverb | ].
  exists put, updatePayload.
  split; [ exact Hsent' | ].
  split; [ exact Hverb | ].
  split; [ exact Hbody | ].
  split; [ exact Hn | ].
  split; [ exact Ht | ].
  split; [ exact Hs | ].
  apply Htitle. reflexivity.
Defined.

Lemma update_with_empty_title :
  exists put updatePayload,
    In put (Http.sent (list reply) Sample.scripted
              (Sample.callTool
                 (Sample.update [ ("pageId", JStr "12345");
                                ("content", JStr "<p>Hello</p>");
                                ("title", JStr "") ]))
              [ HttpReply 200 Sample.page; HttpReply 200 Sample.page ])
    /\ verb put = PUT
    /\ body put = Some updatePayload
    /\ field updatePayload "title" = JStr "T".
Proof.
  pose (put := update_request Sample.env "12345"
                 (payload "12345" "<p>Hello</p>" None Sample.page (JNum 4))).
  assert (Hin : In put
                  (Http.sent (list reply) Sample.scripted
                     (Sample.callTool
                        (Sample.update [ ("pageId", JStr "12345");
                                       ("content", JStr "<p>Hello</p>");
                                       ("title", JStr "") ]))
                     [ HttpReply 200 Sample.page; HttpReply 200 Sample.page ]))
    by (right; left; reflexivity).
  destruct (empty_title_keeps_current_title
              Sample.NumberToString Sample.StringToNumber Sample.env
              (list reply) Sample.scripted
              (Sample.update [ ("pageId", JStr "12345");
                             ("content", JStr "<p>Hello</p>");
                             ("title", JStr "") ])
              [ HttpReply 200 Sample.page; HttpReply 200 Sample.page ]
              put eq_refl Hin eq_refl)
    as [pageId [updatePayload [Hid [Hbody [Hempty _]]]]].
  injection Hid as <-.
  exists put, updatePayload.
  split; [ exact Hin | ].
  split; [ reflexivity | ].
  split; [ exact Hbody | ].
  apply Hempty. reflexivity.
Defined.

(** C4 fails on the code: the fetch of update_page_content is answered 503
    with a text body; the text item is not [{error: body}], the body comes
    back inside a sentence. *)
Lemma failed_fetch_is_not_returned_as_its_body :
  failure (HttpReply 503 (JStr "Service Unavailable"))
  = Some (JStr "Service Unavailable")
  /\ Sample.call (Sample.update [ ("pageId", JStr "12345");
                                ("content", JStr "<p>Hello</p>") ])
       [ HttpReply 503 (JStr "Service Unavailable") ]
     = (Returned
          (Server.text_content Sample.NumberToString
             (JObj [ ("error",
                      JStr "Failed to get current page: Service Unavailable")
                   ])),
        [ page_request Sample.env "12345" ], [])
  /\ Server.text_content Sample.NumberToString
       (JObj [ ("error",
                JStr "Failed to get current page: Service Unavailable") ])
     <> Server.text_content Sample.NumberToString
          (JObj [ ("error", JStr "Service Unavailable") ]).
Proof.
  split; [ reflexivity | ].
  split; [ reflexivity | ].
  vm_compute. discriminate.
Qed.

(** C5 fails on the code: the fetch dies on a timeout, [getPageContent]
    reports that message as its error, and update_page_content returns a
    different error value, the message behind a prefix. *)
Lemma fetch_error_is_rewritten :
  Http.outcome (list reply) Sample.scripted
    (getPageContent Sample.env "12345")
    [ NetworkError "timeout of 5000ms exceeded" ]
  = Returned (JObj [ ("error", JStr "timeout of 5000ms exceeded") ])
  /\ Http.outcome (list reply) Sample.scripted
       (updatePageContent Sample.NumberToString Sample.StringToNumber
          Sample.env "12345" "<p>Hello</p>" None)
       [ NetworkError "timeout of 5000ms exceeded" ]
     = Returned
         (JObj [ ("error",
                  JStr "Failed to get current page: timeout of 5000ms exceeded") ])
  /\ JStr "Failed to get current page: timeout of 5000ms exceeded"
     <> JStr "timeout of 5000ms exceeded".
Proof.
  split; [ reflexivity | ].
  split; [ reflexivity | ].
  discriminate.
Qed.

Lemma update_after_404 :
  Http.sent (list reply) Sample.scripted
    (Sample.callTool (Sample.update [ ("pageId", JStr "12345");
                                    ("content", JStr "<p>Hello</p>") ]))
    [ HttpReply 404 (JStr "Not Found"); HttpReply 200 Sample.page ]
  = [ page_request Sample.env "12345" ]
  /\ Http.outcome (list reply) Sample.scripted
       (Sample.callTool (Sample.update [ ("pageId", JStr "12345");
                                       ("content", JStr "<p>Hello</p>") ]))
       [ HttpReply 404 (JStr "Not Found"); HttpReply 200 Sample.page ]
     = Returned
         (Server.text_content Sample.NumberToString
            (JObj [ ("error",
                     JStr "Failed to get current page: Not Found") ])).
Proof.
  destruct (failed_fetch_aborts_the_update
              Sample.NumberToString Sample.StringToNumber Sample.env
              (list reply) Sample.scripted
              (Sample.update [ ("pageId", JStr "12345");
                             ("content", JStr "<p>Hello</p>") ])
              [ HttpReply 404 (JStr "Not Found"); HttpReply 200 Sample.page ]
              (page_request Sample.env "12345") []
              (JStr "Not Found") eq_refl eq_refl eq_refl)
    as [_ [_ [_ Hreturned]]].
  split; [ reflexivity | ].
  apply (Hreturned "Not Found"); [ reflexivity | discriminate ].
Defined.

(** A search answered 404, and one that never got an answer: both come back
    as data. *)
Example search_answered_404 :
  Sample.call (Sample.search [ ("cql", JStr "type=page") ])
    [ HttpReply 404 Sample.not_found ]
  = (Returned
       (Server.text_content Sample.NumberToString
          (JObj [ ("error", Sample.not_found) ])),
     [ search_request Sample.env "type=page" 10 ], [])
  /\ Sample.call (Sample.search [ ("cql", JStr "type=page") ])
       [ NetworkError "getaddrinfo ENOTFOUND example.atlassian.net" ]
     = (Returned
          (Server.text_content Sample.NumberToString
             (JObj [ ("error",
                      JStr "getaddrinfo ENOTFOUND example.atlassian.net") ])),
        [ search_request Sample.env "type=page" 10 ], []).
Proof. split; reflexivity. Qed.

(** A fetch answered 404 with an empty body: the error [""] is falsy, the
    update goes on to build its payload and stops at [version.number]; the
    TypeError's message is what comes back, and no PUT is sent. *)
Example update_after_empty_404 :
  Sample.call (Sample.update [ ("pageId", JStr "12345");
                               ("content", JStr "<p>Hello</p>") ])
    [ HttpReply 404 (JStr ""); HttpReply 200 Sample.page ]
  = (Returned
       (Server.text_content Sample.NumberToString
          (JObj [ ("error",
                   JStr "Cannot read properties of undefined (reading 'number')") ])),
     [ page_request Sample.env "12345" ],
     [ HttpReply 200 Sample.page ]).
Proof. reflexivity. Qed.

(** An argument that has no string: the conversion's TypeError leaves the
    handler before anything is sent.  The same value as the fetched page's
    [version.number]: the TypeError is caught, its message comes back, and
    no PUT is sent. *)
Example update_with_unconvertible_values :
  Sample.call (Sample.update [ ("pageId", JStr "12345");
                               ("content", JStr "<p>Hello</p>");
                               ("title", Sample.stubborn) ])
    [ HttpReply 200 Sample.page ]
  = (Thrown (TypeError "Cannot convert object to primitive value"), [],
     [ HttpReply 200 Sample.page ])
  /\ Sample.call (Sample.update [ ("pageId", JStr "12345");
                                  ("content", JStr "<p>Hello</p>") ])
       [ HttpReply 200
           (JObj [ ("version", JObj [ ("number", Sample.stubborn) ]) ]);
         HttpReply 200 Sample.page ]
     = (Returned
          (Server.text_content Sample.NumberToString
             (JObj [ ("error",
                      JStr "Cannot convert object to primitive value") ])),
        [ page_request Sample.env "12345" ],
        [ HttpReply 200 Sample.page ]).
Proof. split; reflexivity. Qed.

(** ** Further properties of the code *)

(** *** The Authorization header's encoding *)

Module Base64Facts.
Import Base64.

(** Linear arithmetic with quotients and remainders by constants. *)
Ltac div_lia := zify; Z.to_euclidean_division_equations; lia.

(** Every sextet has its character, and the character gives it back. *)
Lemma unsextet_sextet (n : N) : (n < 64)%N -> unsextet (sextet n) = Some n.
Proof.
  intro Hn.
  assert (Hall : forallb
                   (fun k => match unsextet (sextet (N.of_nat k)) with
                             | Some m => N.eqb m (N.of_nat k)
                             | None => false
                             end) (seq 0 64) = true)
    by (vm_compute; reflexivity).
  rewrite forallb_forall in Hall.
  specialize (Hall (N.to_nat n)).
  rewrite N2Nat.id in Hall.
  destruct (unsextet (sextet n)) as [m | ].
  - f_equal. apply N.eqb_eq, Hall, in_seq. lia.
  - discriminate Hall. apply in_seq. lia.
Qed.

Lemma unsextet_pad : unsextet "=" = None.
Proof. reflexivity. Qed.

Lemma byte_code (a : ascii) (n : N) : n = N_of_ascii a -> byte n = a.
Proof. intros ->. apply ascii_N_embedding. Qed.

Lemma code_below_256 (a : ascii) : (N_of_ascii a < 256)%N.
Proof. apply N_ascii_bounded. Qed.

(** Strings three characters at a time. *)
Lemma string_by_threes (P : string -> Prop) :
  P "" ->
  (forall a, P (String a "")) ->
  (forall a b, P (String a (String b ""))) ->
  (forall a b c rest, P rest -> P (String a (String b (String c rest)))) ->
  forall s, P s.
Proof.
  intros H0 H1 H2 H3.
  fix by_threes 1.
  intros [ | a [ | b [ | c rest ] ] ].
  - exact H0.
  - apply H1.
  - apply H2.
  - apply H3, by_threes.
Qed.

(** Decoding undoes encoding. *)
Lemma decode_base64 (s : string) : decode (base64 s) = Some s.
Proof.
  induction s as [ | a | a b | a b c rest IH ] using string_by_threes.
  - reflexivity.
  - pose proof (code_below_256 a) as Ha.
    cbn [base64 decode].
    rewrite !unsextet_sextet, unsextet_pad by div_lia.
    cbn [Ascii.eqb Bool.eqb andb].
    f_equal. f_equal. apply byte_code. div_lia.
  - pose proof (code_below_256 a) as Ha.
    pose proof (code_below_256 b) as Hb.
    cbn [base64 decode].
    rewrite !unsextet_sextet, unsextet_pad by div_lia.
    cbn [Ascii.eqb Bool.eqb andb].
    f_equal. f_equal; [ apply byte_code; div_lia | ].
    f_equal. apply byte_code. div_lia.
  - pose proof (code_below_256 a) as Ha.
    pose proof (code_below_256 b) as Hb.
    pose proof (code_below_256 c) as Hc.
    cbn [base64 decode].
    rewrite !unsextet_sextet by div_lia.
    rewrite IH.
    f_equal. f_equal; [ apply byte_code; div_lia | ].
    f_equal; [ apply byte_code; div_lia | ].
    f_equal. apply byte_code. div_lia.
Qed.

Lemma base64_injective (s t : string) : base64 s = base64 t -> s = t.
Proof.
  intro H.
  assert (Hd : decode (base64 s) = decode (base64 t)) by (rewrite H; reflexivity).
  rewrite !decode_base64 in Hd.
  injection Hd as ->. reflexivity.
Qed.

End Base64Facts.

(** *** What an invocation sends and throws *)

Section Traces.

Variable NumberToString : float -> string.
Variable StringToNumber : string -> float.
Variable env : Env.
Variable W : Type.
Variable respond : W -> HttpRequest -> reply * W.

Abbreviation callTool := (Server.callTool NumberToString StringToNumber env).
Abbreviation text_content := (Server.text_content NumberToString).
Abbreviation pageId_of := (Reading.pageId_of NumberToString).
Abbreviation content_of := (Reading.content_of NumberToString).
Abbreviation title_of := (Reading.title_of NumberToString).
Abbreviation cql_of := (Reading.cql_of NumberToString).
Abbreviation limit_of := (Reading.limit_of NumberToString StringToNumber).
Abbreviation converts := (Reading.converts NumberToString).
Abbreviation sent := (Http.sent W respond).
Abbreviation outcome := (Http.outcome W respond).
Abbreviation run := (Http.run W respond).





(** X1.  An invocation sends nothing, one GET, or the GET of a page followed
    by one PUT to the same page: a search sends at most its search, a page
    fetch at most its fetch, only update_page_content ever sends a PUT and
    then as its second and last request, and an unknown tool sends
    nothing. *)
Theorem requests_of_an_invocation (request : CallToolRequest) (w : W) :
  (~ In (tool request) tool_names -> sent (callTool request) w = [])
  /\ (tool request = "execute_cql_search" ->
      sent (callTool request) w = []
      \/ exists cql limit,
           cql_of request = Some cql /\ limit_of request = Some limit
           /\ sent (callTool request) w = [search_request env cql limit])
  /\ (tool request = "get_page_content" ->
      sent (callTool request) w = []
      \/ exists pageId,
           pageId_of request = Some pageId
           /\ sent (callTool request) w = [page_request env pageId])
  /\ (tool request = "update_page_content" ->
      sent (callTool request) w = []
      \/ exists pageId,
           pageId_of request = Some pageId
           /\ (sent (callTool request) w = [page_request env pageId]
               \/ exists updatePayload,
                    sent (callTool request) w
                    = [page_request env pageId;
                       update_request env pageId updatePayload])).
Proof.
  repeat apply conj.
  - apply sent_unknown_inv.
  - intro E.
    destruct (sent (callTool request) w) as [ | first rest ] eqn:Hsent;
      [ left; reflexivity | right ].
    destruct (sent_search_inv _ _ _ _ _ _ _ _ _ E Hsent)
      as [cql [limit [Hcql [_ [Hlimit [-> ->]]]]]].
    exists cql, limit. auto.
  - intro E.
    destruct (sent (callTool request) w) as [ | first rest ] eqn:Hsent;
      [ left; reflexivity | right ].
    destruct (sent_page_inv _ _ _ _ _ _ _ _ _ E Hsent)
      as [pageId [Hid [_ [-> ->]]]].
    exists pageId. auto.
  - intro E.
    destruct (sent (callTool request) w) as [ | first rest ] eqn:Hsent;
      [ left; reflexivity | right ].
    destruct (sent_update_inv _ _ _ _ _ _ _ _ _ E Hsent)
      as [pageId [content [title [Hid [_ [_ [_ [_ [-> ->]]]]]]]]].
    exists pageId. split; [ exact Hid | ].
    destruct (between _ _ _ _ _ _); eauto.
Qed.

(** X2.  Every request an invocation sends carries the two headers of
    [getAuthHeaders], and goes to a URL under
    [CONFLUENCE_URL + "/wiki/rest/api/content/"], whatever the arguments and
    also when the environment is not set. *)
Theorem every_request_is_authorized (request : CallToolRequest) (w : W) :
  Forall (fun r =>
            headers r = getAuthHeaders env
            /\ exists suffix,
                 url r = interpolate (CONFLUENCE_URL env)
                         ++ "/wiki/rest/api/content/" ++ suffix)
    (sent (callTool request) w).
Proof.
  assert (Hsearch : forall cql limit,
             headers (search_request env cql limit) = getAuthHeaders env
             /\ exists suffix,
                  url (search_request env cql limit)
                  = interpolate (CONFLUENCE_URL env)
                    ++ "/wiki/rest/api/content/" ++ suffix)
    by (intros; split; [ reflexivity | exists "search"; reflexivity ]).
  assert (Hpage : forall pageId,
             headers (page_request env pageId) = getAuthHeaders env
             /\ exists suffix,
                  url (page_request env pageId)
                  = interpolate (CONFLUENCE_URL env)
                    ++ "/wiki/rest/api/content/" ++ suffix)
    by (intros; split; [ reflexivity | eexists; reflexivity ]).
  assert (Hput : forall pageId updatePayload,
             headers (update_request env pageId updatePayload)
             = getAuthHeaders env
             /\ exists suffix,
                  url (update_request env pageId updatePayload)
                  = interpolate (CONFLUENCE_URL env)
                    ++ "/wiki/rest/api/content/" ++ suffix)
    by (intros; split; [ reflexivity | eexists; reflexivity ]).
  destruct (sent (callTool request) w) as [ | first rest ] eqn:Hsent;
    [ constructor | ].
  destruct (tool_cases request) as [E | [E | [E | Hnot]]].
  - destruct (sent_search_inv _ _ _ _ _ _ _ _ _ E Hsent)
      as [cql [limit [_ [_ [_ [-> ->]]]]]].
    auto.
  - destruct (sent_page_inv _ _ _ _ _ _ _ _ _ E Hsent)
      as [pageId [_ [_ [-> ->]]]].
    auto.
  - destruct (sent_update_inv _ _ _ _ _ _ _ _ _ E Hsent)
      as [pageId [content [title [_ [_ [_ [_ [_ [-> ->]]]]]]]]].
    destruct (between _ _ _ _ _ _); auto.
  - rewrite (sent_unknown_inv _ _ _ _ _ _ _ Hnot) in Hsent.
    discriminate Hsent.
Qed.





End Traces.

(** *** The registry and what the handler reads *)

Section Registry.

Variable NumberToString : float -> string.
Variable StringToNumber : string -> float.
Variable env : Env.

Abbreviation callTool := (Server.callTool NumberToString StringToNumber env).

(** X4.  The handler reads only the arguments the registry declares for the
    tool: two requests for the same tool that agree on every declared
    property are handled by the same computation, whatever else they
    carry. *)
Theorem undeclared_arguments_are_ignored (request1 request2 : CallToolRequest) :
  tool request1 = tool request2 ->
  (forall d p,
      In d listTools -> name d = tool request1 -> In p (properties d) ->
      argument request1 (prop_name p) = argument request2 (prop_name p)) ->
  callTool request1 = callTool request2.
Proof.
  intros Htool Hagree.
  assert (Hread : forall d,
             In d listTools -> name d = tool request1 ->
             Forall (fun p => argument request2 (prop_name p)
                              = argument request1 (prop_name p))
               (properties d))
    by (intros d Hd Hname; apply Forall_forall; intros p Hp; symmetry;
        exact (Hagree d p Hd Hname Hp)).
  unfold Server.callTool. rewrite <- Htool.
  destruct (String.eqb_spec (tool request1) "execute_cql_search") as [E | _].
  { pose proof (Hread _ (or_introl eq_refl) (eq_sym E)) as Hd.
    inversion_clear Hd as [ | ? ? Hcql Hd' ].
    inversion_clear Hd' as [ | ? ? Hlimit _ ].
    cbn [prop_name] in Hcql, Hlimit.
    rewrite Hcql, Hlimit. reflexivity. }
  destruct (String.eqb_spec (tool request1) "get_page_content") as [E | _].
  { pose proof (Hread _ (or_intror (or_introl eq_refl)) (eq_sym E)) as Hd.
    inversion_clear Hd as [ | ? ? Hid _ ].
    cbn [prop_name] in Hid.
    rewrite Hid. reflexivity. }
  destruct (String.eqb_spec (tool request1) "update_page_content") as [E | _].
  { pose proof (Hread _ (or_intror (or_intror (or_introl eq_refl)))
                  (eq_sym E)) as Hd.
    inversion_clear Hd as [ | ? ? Hid Hd' ].
    inversion_clear Hd' as [ | ? ? Hcontent Hd'' ].
    inversion_clear Hd'' as [ | ? ? Htitle _ ].
    cbn [prop_name] in Hid, Hcontent, Htitle.
    rewrite Hid, Hcontent, Htitle. reflexivity. }
  reflexivity.
Qed.

(** X5.  A default the registry declares is the value the handler falls back
    on: leaving such a property out, or giving it as [null], is handled as
    giving the declared default. *)
Theorem declared_default_is_used
  (request1 request2 : CallToolRequest) (d : ToolDescriptor) (p : Property)
  (v : value) :
  In d listTools -> In p (properties d) -> prop_default p = Some v ->
  name d = tool request1 -> tool request1 = tool request2 ->
  is_nullish (argument request1 (prop_name p)) = true ->
  argument request2 (prop_name p) = v ->
  (forall q,
      In q (properties d) -> prop_name q <> prop_name p ->
      argument request1 (prop_name q) = argument request2 (prop_name q)) ->
  callTool request1 = callTool request2.
Proof.
  intros Hd Hp Hdefault Hname Htool Hnull Hgiven Hothers.
  unfold listTools in Hd.
  destruct Hd as [<- | [<- | [<- | []]]]; simpl in Hp.
  - destruct Hp as [<- | [<- | []]]; simpl in *; [ discriminate | ].
    injection Hdefault as <-.
    pose proof (Hothers _ (or_introl eq_refl)) as Hcql. simpl in Hcql.
    specialize (Hcql ltac:(discriminate)).
    symmetry in Hname.
    rewrite (callTool_search _ _ _ _ Hname).
    rewrite Htool in Hname.
    rewrite (callTool_search _ _ _ _ Hname).
    unfold Reading.cql_of, Reading.limit_of, nullish_or.
    rewrite Hcql, Hgiven, Hnull. reflexivity.
  - destruct Hp as [<- | []]; discriminate.
  - destruct Hp as [<- | [<- | [<- | []]]]; discriminate.
Qed.

End Registry.

Lemma extra_argument_example :
  Server.callTool Sample.NumberToString Sample.StringToNumber Sample.env
    (Sample.fetch [ ("pageId", JStr "12345"); ("limit", JNum 5);
                    ("verbose", JBool true) ])
  = Server.callTool Sample.NumberToString Sample.StringToNumber Sample.env
      (Sample.fetch [ ("pageId", JStr "12345") ]).
Proof.
  apply undeclared_arguments_are_ignored.
  - reflexivity.
  - intros d p [<- | [<- | [<- | []]]] Hname Hp; try discriminate Hname.
    destruct Hp as [<- | []]. reflexivity.
Defined.

Lemma null_limit_example :
  Server.callTool Sample.NumberToString Sample.StringToNumber Sample.env
    (Sample.search [ ("cql", JStr "type=page"); ("limit", JNull) ])
  = Server.callTool Sample.NumberToString Sample.StringToNumber Sample.env
      (Sample.search [ ("cql", JStr "type=page"); ("limit", JNum 10) ]).
Proof.
  apply (declared_default_is_used
           Sample.NumberToString Sample.StringToNumber Sample.env
           (Sample.search [ ("cql", JStr "type=page"); ("limit", JNull) ])
           (Sample.search [ ("cql", JStr "type=page"); ("limit", JNum 10) ])
           {| name := "execute_cql_search";
              description := "Execute a CQL query on Confluence to search pages";
              properties :=
                [ {| prop_name := "cql"; prop_type := "string";
                     prop_description := "CQL query string";
                     prop_default := None |};
                  {| prop_name := "limit"; prop_type := "integer";
                     prop_description := "Number of results to return";
                     prop_default := Some (JNum 10) |} ];
              required := ["cql"] |}
           {| prop_name := "limit"; prop_type := "integer";
              prop_description := "Number of results to return";
              prop_default := Some (JNum 10) |}
           (JNum 10)).
  - left; reflexivity.
  - right; left; reflexivity.
  - reflexivity.
  - reflexivity.
  - reflexivity.
  - reflexivity.
  - reflexivity.
  - intros q [<- | [<- | []]] Hq; [ reflexivity | ].
    exfalso; apply Hq; reflexivity.
Defined.

(** *** The update, edge by edge *)

Section UpdateEdges.

Variable NumberToString : float -> string.
Variable StringToNumber : string -> float.
Variable env : Env.
Variable W : Type.
Variable respond : W -> HttpRequest -> reply * W.

Abbreviation callTool := (Server.callTool NumberToString StringToNumber env).
Abbreviation text_content := (Server.text_content NumberToString).
Abbreviation pageId_of := (Reading.pageId_of NumberToString).
Abbreviation content_of := (Reading.content_of NumberToString).
Abbreviation title_of := (Reading.title_of NumberToString).
Abbreviation cql_of := (Reading.cql_of NumberToString).
Abbreviation limit_of := (Reading.limit_of NumberToString StringToNumber).
Abbreviation converts := (Reading.converts NumberToString).
Abbreviation sent := (Http.sent W respond).
Abbreviation outcome := (Http.outcome W respond).
Abbreviation run := (Http.run W respond).
Abbreviation between := (Reading.between NumberToString StringToNumber).

(** A title that converts is passed on, as a string or as [undefined]. *)
Lemma title_converts (request : CallToolRequest) :
  converts (argument request "title") <->
  exists title, title_of request = Some title.
Proof.
  unfold Reading.converts.
  rewrite <- (title_of_None NumberToString).
  destruct (title_of request) as [title | ]; split.
  - eauto.
  - discriminate.
  - intro H. contradiction.
  - intros [title H]. discriminate H.
Qed.

(** Reading [number] off a version that is there. *)
Lemma number_of_version (v : value) :
  is_nullish v = false -> get_prop v "number" = inr (field v "number").
Proof.
  destruct v; simpl; intro H; try discriminate H; reflexivity.
Qed.

(** X6.  A PUT goes out exactly when the tool is update_page_content, its
    [pageId] and [content] convert to strings that are not empty, its
    [title] converts, and what the fetch handed back has no truthy [error]
    and a [version] that is neither missing nor [null] and whose [number]
    converts. *)
Theorem put_is_sent_exactly_when (request : CallToolRequest) (w : W) :
  (exists r, In r (sent (callTool request) w) /\ verb r = PUT)
  <-> tool request = "update_page_content"
      /\ converts (argument request "title")
      /\ exists pageId content,
           pageId_of request = Some pageId /\ pageId <> ""
           /\ content_of request = Some content /\ content <> ""
           /\ let currentPage :=
                answer (fst (respond w (page_request env pageId))) in
              truthy (field currentPage "error") = false
              /\ is_nullish (field currentPage "version") = false
              /\ converts (field (field currentPage "version") "number").
Proof.
  split.
  - intros [r [Hin Hput]].
    destruct (put_of_update _ _ _ _ _ _ _ _ Hin Hput)
      as [pageId [content [title [number [next H]]]]].
    destruct H as [E [Hid [Hfull [Hc [Hfull' [Ht [_ [Herror [Hn [Hplus _]]]]]]]]]].
    split; [ exact E | ].
    split; [ apply title_converts; eauto | ].
    exists pageId, content.
    split; [ exact Hid | ].
    split; [ exact Hfull | ].
    split; [ exact Hc | ].
    split; [ exact Hfull' | ].
    cbv zeta. split; [ exact Herror | ].
    assert (Hversion : is_nullish
                         (field (answer (fst (respond w (page_request env
                                                           pageId))))
                            "version") = false)
      by (apply number_readable; eauto).
    split; [ exact Hversion | ].
    rewrite (number_of_version _ Hversion) in Hn. injection Hn as ->.
    intro Hthrows.
    apply (proj2 (plus_one_ToString NumberToString StringToNumber number))
      in Hthrows.
    rewrite Hthrows in Hplus. discriminate Hplus.
  - intros [E [Ht [pageId [content [Hid [Hfull [Hc [Hfull' H]]]]]]]].
    cbv zeta in H. destruct H as [Herror [Hversion Hnumber]].
    apply title_converts in Ht as [title Ht].
    destruct (proj2 (between_Put_iff NumberToString StringToNumber
                       pageId content title _)
                (conj Herror
                   (ex_intro _ _ (conj (number_of_version _ Hversion)
                                    Hnumber))))
      as [updatePayload Hb].
    exists (update_request env pageId updatePayload).
    unfold Http.sent.
    rewrite (run_update _ _ _ _ _ _ _ pageId content title E
               Hid Hfull Hc Hfull' Ht).
    rewrite Hb.
    split; [ right; left; reflexivity | reflexivity ].
Qed.

(** X7.  A PUT is addressed to the page named by [pageId], and its body
    carries that id, the [content] argument as rendered by [String] under
    [body.storage.value], and the representation "storage"; a [title]
    argument that is truthy and does not render empty becomes the title. *)
Theorem put_carries_the_arguments (request : CallToolRequest) (w : W)
  (r : HttpRequest) :
  In r (sent (callTool request) w) -> verb r = PUT ->
  exists pageId content,
    pageId_of request = Some pageId
    /\ content_of request = Some content
    /\ url r = interpolate (CONFLUENCE_URL env)
               ++ "/wiki/rest/api/content/" ++ pageId
    /\ params r = None
    /\ exists updatePayload,
         body r = Some updatePayload
         /\ field updatePayload "id" = JStr pageId
         /\ field (field (field updatePayload "body") "storage") "value"
            = JStr content
         /\ field (field (field updatePayload "body") "storage")
              "representation"
            = JStr "storage"
         /\ (truthy (argument request "title") = true ->
             exists s,
               ToString NumberToString (argument request "title") = Some s
               /\ (s <> "" -> field updatePayload "title" = JStr s)).
Proof.
  intros Hin Hput.
  destruct (put_of_update _ _ _ _ _ _ _ _ Hin Hput)
    as [pageId [content [title [number [next H]]]]].
  destruct H as [_ [Hid [_ [Hc [_ [Ht [_ [_ [_ [_ ->]]]]]]]]]].
  exists pageId, content.
  split; [ exact Hid | ].
  split; [ exact Hc | ].
  split; [ reflexivity | ].
  split; [ reflexivity | ].
  eexists; split; [ reflexivity | ].
  repeat split.
  intros Htruthy.
  unfold Reading.title_of in Ht. rewrite Htruthy in Ht.
  destruct (ToString NumberToString (argument request "title")) as [s | ];
    [ | discriminate Ht ].
  injection Ht as <-.
  exists s. split; [ reflexivity | ].
  intro Hfull.
  unfold payload, field. cbn [get_prop lookup String.eqb].
  simpl. unfold or_else. simpl.
  apply String.eqb_neq in Hfull. rewrite Hfull. reflexivity.
Qed.

(** X8.  When [pageId], [content] and [title] pass conversion and
    validation and the fetch is answered 2xx with a body (an object, or any
    value other than [null]) that has no truthy [error] but whose [version]
    is missing or [null], the update stops after the fetch: no PUT, and the
    text holds the TypeError's message as the error. *)
Theorem page_without_version_is_not_updated
  (request : CallToolRequest) (w : W) (pageId content : string) (d : value) :
  tool request = "update_page_content" ->
  pageId_of request = Some pageId -> pageId <> "" ->
  content_of request = Some content -> content <> "" ->
  converts (argument request "title") ->
  success (fst (respond w (page_request env pageId))) = Some d ->
  is_nullish d = false ->
  truthy (field d "error") = false ->
  is_nullish (field d "version") = true ->
  exists missing,
    ToString NumberToString (field d "version") = Some missing
    /\ run (callTool request) w
       = (Returned
            (text_content
               (JObj [ ("error",
                        JStr ("Cannot read properties of " ++ missing
                              ++ " (reading 'number')")) ])),
          [ page_request env pageId ],
          snd (respond w (page_request env pageId))).
Proof.
  intros E Hid Hfull Hcontent Hfull' Htitle Hpage Hbody Herror Hversion.
  apply title_converts in Htitle as [title Htitle].
  rewrite (run_update _ _ _ _ _ _ _ pageId content title E
             Hid Hfull Hcontent Hfull' Htitle).
  rewrite (answer_success _ _ Hpage).
  unfold Reading.between.
  destruct d as [ | | b | x | s | elems | props ];
    try discriminate Hbody; cbn [get_prop];
    unfold field in Herror; cbn [get_prop] in Herror; rewrite Herror;
    try (eexists; split; reflexivity).
  destruct (field (JObj props) "version"); try discriminate Hversion;
    eexists; split; reflexivity.
Qed.

(** X16.  When the fetch of an update fails with an error that is falsy (an
    empty body, [0], [false], [null]), the failure goes unnoticed, the
    update runs on to [currentPage.version.number] and stops there: no PUT,
    and the text holds that TypeError's message, not the fetch's error. *)
Theorem failed_fetch_with_falsy_error
  (request : CallToolRequest) (w : W) (pageId content : string) (b : value) :
  tool request = "update_page_content" ->
  pageId_of request = Some pageId -> pageId <> "" ->
  content_of request = Some content -> content <> "" ->
  converts (argument request "title") ->
  failure (fst (respond w (page_request env pageId))) = Some b ->
  truthy b = false ->
  run (callTool request) w
  = (Returned
       (text_content
          (JObj [ ("error",
                   JStr "Cannot read properties of undefined (reading 'number')") ])),
     [ page_request env pageId ],
     snd (respond w (page_request env pageId))).
Proof.
  intros E Hid Hfull Hcontent Hfull' Htitle Hfail Hfalsy.
  apply title_converts in Htitle as [title Htitle].
  rewrite (run_update _ _ _ _ _ _ _ pageId content title E
             Hid Hfull Hcontent Hfull' Htitle).
  rewrite (answer_failure _ _ Hfail).
  unfold Reading.between. cbn [get_prop lookup String.eqb Ascii.eqb Bool.eqb].
  simpl. rewrite Hfalsy. reflexivity.
Qed.

(** X9.  A version number that arrives as text is not incremented: [+ 1]
    appends the rendering of 1 to it, and that text is what the PUT carries
    as [version.number]. *)
Theorem textual_version_number_is_appended_to
  (request : CallToolRequest) (w : W) (pageId : string)
  (props vprops : list (string * value)) (s : string) (r : HttpRequest) :
  pageId_of request = Some pageId ->
  success (fst (respond w (page_request env pageId))) = Some (JObj props) ->
  lookup "version" props = Some (JObj vprops) ->
  lookup "number" vprops = Some (JStr s) ->
  In r (sent (callTool request) w) -> verb r = PUT ->
  exists updatePayload,
    body r = Some updatePayload
    /\ field (field updatePayload "version") "number"
       = JStr (s ++ NumberToString 1).
Proof.
  intros Hid Hpage Hversion Hnumber Hin Hput.
  destruct (put_of_update _ _ _ _ _ _ _ _ Hin Hput)
    as [pageId' [content [title [number [next H]]]]].
  destruct H as [_ [Hid' [_ [_ [_ [_ [_ [_ [Hread [Hplus ->]]]]]]]]]].
  rewrite Hid in Hid'. injection Hid' as <-.
  rewrite (answer_success _ _ Hpage) in *.
  unfold field in Hread. cbn [get_prop] in Hread.
  rewrite Hversion in Hread. cbn [get_prop] in Hread.
  rewrite Hnumber in Hread. injection Hread as <-.
  rewrite plus_one_string in Hplus. injection Hplus as <-.
  eexists; split; reflexivity.
Qed.

(** X10.  A fetch answered 2xx with a body whose [error] property is truthy
    is taken for a failed fetch: no PUT.  The text reports "Failed to get
    current page: " followed by that property rendered by [String], or,
    when it cannot be rendered, the message of the conversion's
    TypeError. *)
Theorem page_with_error_property_is_not_updated
  (request : CallToolRequest) (w : W) (pageId content : string) (d : value) :
  tool request = "update_page_content" ->
  pageId_of request = Some pageId -> pageId <> "" ->
  content_of request = Some content -> content <> "" ->
  converts (argument request "title") ->
  success (fst (respond w (page_request env pageId))) = Some d ->
  truthy (field d "error") = true ->
  run (callTool request) w
  = (Returned
       (text_content
          (JObj [ ("error",
                   JStr match ToString NumberToString (field d "error") with
                        | Some rendered =>
                            "Failed to get current page: " ++ rendered
                        | None => "Cannot convert object to primitive value"
                        end) ])),
     [ page_request env pageId ],
     snd (respond w (page_request env pageId))).
Proof.
  intros E Hid Hfull Hcontent Hfull' Htitle Hpage Herror.
  apply title_converts in Htitle as [title Htitle].
  rewrite (run_update _ _ _ _ _ _ _ pageId content title E
             Hid Hfull Hcontent Hfull' Htitle).
  rewrite (answer_success _ _ Hpage).
  rewrite (between_truthy_error NumberToString StringToNumber _ _ _ _ Herror).
  destruct (ToString NumberToString (field d "error")); reflexivity.
Qed.

(** X11.  get_page_content with a [pageId] that converts to a string that
    is not empty sends one GET for that page, expanding [body.storage] and
    [version], and when it is answered 2xx returns the body, serialized, as
    the text. *)
Theorem page_fetch_returns_the_body
  (request : CallToolRequest) (w : W) (pageId : string) (d : value) :
  tool request = "get_page_content" ->
  pageId_of request = Some pageId -> pageId <> "" ->
  success (fst (respond w (page_request env pageId))) = Some d ->
  run (callTool request) w
  = (Returned {| content :=
                   [ {| type := "text";
                        text := JSON_stringify NumberToString d |} ] |},
     [ {| verb := GET;
          url := interpolate (CONFLUENCE_URL env)
                 ++ "/wiki/rest/api/content/" ++ pageId
                 ++ "?expand=body.storage,version";
          headers := getAuthHeaders env;
          params := None;
          body := None |} ],
     snd (respond w (page_request env pageId))).
Proof.
  intros E Hid Hfull Hpage.
  rewrite (run_page _ _ _ _ _ _ _ pageId E Hid Hfull).
  rewrite (answer_success _ _ Hpage). reflexivity.
Qed.

(** X12.  When the PUT of an update is answered 2xx, the text is the PUT's
    response body, serialized; the page fetched before it does not show in
    the result. *)
Theorem update_returns_the_put_response
  (request : CallToolRequest) (w : W) (fetch put : HttpRequest) (d : value) :
  sent (callTool request) w = [ fetch; put ] ->
  success (fst (respond (snd (respond w fetch)) put)) = Some d ->
  outcome (callTool request) w
  = Returned {| content :=
                  [ {| type := "text";
                       text := JSON_stringify NumberToString d |} ] |}.
Proof.
  intros Hsent Hreply.
  assert (E : tool request = "update_page_content").
  { destruct (tool_cases request) as [E | [E | [E | Hnot]]].
    - destruct (sent_search_inv _ _ _ _ _ _ _ _ _ E Hsent)
        as [cql [limit [_ [_ [_ [_ H]]]]]]. discriminate H.
    - destruct (sent_page_inv _ _ _ _ _ _ _ _ _ E Hsent)
        as [pageId [_ [_ [_ H]]]]. discriminate H.
    - exact E.
    - rewrite (sent_unknown_inv _ _ _ _ _ _ _ Hnot) in Hsent.
      discriminate Hsent. }
  destruct (sent_update_inv _ _ _ _ _ _ _ _ _ E Hsent)
    as [pageId [content [title [Hid [Hfull [Hc [Hfull' [Ht [-> Hrest]]]]]]]]].
  unfold Http.outcome.
  rewrite (run_update _ _ _ _ _ _ _ pageId content title E
             Hid Hfull Hc Hfull' Ht).
  cbv zeta.
  destruct (Reading.between _ _ _ _ _ _) as [v | updatePayload | e];
    try discriminate Hrest.
  injection Hrest as ->. simpl.
  rewrite (answer_success _ _ Hreply). reflexivity.
Qed.

End UpdateEdges.

Lemma update_with_new_title :
  exists put updatePayload,
    In put (Http.sent (list reply) Sample.scripted
              (Sample.callTool
                 (Sample.update [ ("pageId", JStr "12345");
                                  ("content", JStr "<p>Hello</p>");
                                  ("title", JStr "New title") ]))
              [ HttpReply 200 Sample.page; HttpReply 200 Sample.page ])
    /\ url put = "https://example.atlassian.net/wiki/rest/api/content/12345"
    /\ body put = Some updatePayload
    /\ field updatePayload "id" = JStr "12345"
    /\ field (field (field updatePayload "body") "storage") "value"
       = JStr "<p>Hello</p>"
    /\ field updatePayload "title" = JStr "New title".
Proof.
  pose (put := update_request Sample.env "12345"
                 (payload "12345" "<p>Hello</p>" (Some "New title")
                    Sample.page (JNum 4))).
  assert (Hin : In put
                  (Http.sent (list reply) Sample.scripted
                     (Sample.callTool
                        (Sample.update [ ("pageId", JStr "12345");
                                         ("content", JStr "<p>Hello</p>");
                                         ("title", JStr "New title") ]))
                     [ HttpReply 200 Sample.page; HttpReply 200 Sample.page ]))
    by (right; left; reflexivity).
  destruct (put_carries_the_arguments
              Sample.NumberToString Sample.StringToNumber Sample.env
              (list reply) Sample.scripted
              (Sample.update [ ("pageId", JStr "12345");
                               ("content", JStr "<p>Hello</p>");
                               ("title", JStr "New title") ])
              [ HttpReply 200 Sample.page; HttpReply 200 Sample.page ]
              put Hin eq_refl)
    as [pageId [content [Hid [Hcontent [Hurl [_ H]]]]]].
  destruct H as [updatePayload [Hbody [Hid' [Hvalue [_ Htitle]]]]].
  injection Hid as <-. injection Hcontent as <-.
  destruct (Htitle eq_refl) as [s [Hs Htitle']].
  injection Hs as <-.
  exists put, updatePayload.
  split; [ exact Hin | ].
  split; [ exact Hurl | ].
  split; [ exact Hbody | ].
  split; [ exact Hid' | ].
  split; [ exact Hvalue | ].
  apply Htitle'. discriminate.
Defined.

Lemma update_of_page_without_version :
  exists missing,
    ToString Sample.NumberToString
      (field (JObj [ ("id", JStr "12345"); ("title", JStr "T") ]) "version")
    = Some missing
    /\ Sample.call (Sample.update [ ("pageId", JStr "12345");
                                    ("content", JStr "<p>Hello</p>") ])
         [ HttpReply 200 (JObj [ ("id", JStr "12345"); ("title", JStr "T") ]);
           HttpReply 200 Sample.page ]
       = (Returned
            (Server.text_content Sample.NumberToString
               (JObj [ ("error",
                        JStr ("Cannot read properties of " ++ missing
                              ++ " (reading 'number')")) ])),
          [ page_request Sample.env "12345" ],
          [ HttpReply 200 Sample.page ]).
Proof.
  apply (page_without_version_is_not_updated
           Sample.NumberToString Sample.StringToNumber Sample.env
           (list reply) Sample.scripted
           (Sample.update [ ("pageId", JStr "12345");
                            ("content", JStr "<p>Hello</p>") ])
           [ HttpReply 200 (JObj [ ("id", JStr "12345"); ("title", JStr "T") ]);
             HttpReply 200 Sample.page ]
           "12345" "<p>Hello</p>"
           (JObj [ ("id", JStr "12345"); ("title", JStr "T") ])).
  - reflexivity.
  - reflexivity.
  - discriminate.
  - reflexivity.
  - discriminate.
  - discriminate.
  - reflexivity.
  - reflexivity.
  - reflexivity.
  - reflexivity.
Defined.

Lemma update_after_404_without_body :
  Sample.call (Sample.update [ ("pageId", JStr "12345");
                               ("content", JStr "<p>Hello</p>") ])
    [ HttpReply 404 (JStr "") ]
  = (Returned
       (Server.text_content Sample.NumberToString
          (JObj [ ("error",
                   JStr "Cannot read properties of undefined (reading 'number')") ])),
     [ page_request Sample.env "12345" ],
     []).
Proof.
  apply (failed_fetch_with_falsy_error
           Sample.NumberToString Sample.StringToNumber Sample.env
           (list reply) Sample.scripted
           (Sample.update [ ("pageId", JStr "12345");
                            ("content", JStr "<p>Hello</p>") ])
           [ HttpReply 404 (JStr "") ] "12345" "<p>Hello</p>" (JStr "")).
  - reflexivity.
  - reflexivity.
  - discriminate.
  - reflexivity.
  - discriminate.
  - discriminate.
  - reflexivity.
  - reflexivity.
Defined.

Lemma update_of_page_with_textual_version :
  exists put updatePayload,
    In put (Http.sent (list reply) Sample.scripted
              (Sample.callTool
                 (Sample.update [ ("pageId", JStr "12345");
                                  ("content", JStr "<p>Hello</p>") ]))
              [ HttpReply 200
                  (JObj [ ("title", JStr "T");
                          ("version", JObj [ ("number", JStr "3") ]) ]);
                HttpReply 200 Sample.page ])
    /\ verb put = PUT
    /\ body put = Some updatePayload
    /\ field (field updatePayload "version") "number" = JStr "31".
Proof.
  pose (put := update_request Sample.env "12345"
                 (payload "12345" "<p>Hello</p>" None
                    (JObj [ ("title", JStr "T");
                            ("version", JObj [ ("number", JStr "3") ]) ])
                    (JStr "31"))).
  assert (Hin : In put
                  (Http.sent (list reply) Sample.scripted
                     (Sample.callTool
                        (Sample.update [ ("pageId", JStr "12345");
                                         ("content", JStr "<p>Hello</p>") ]))
                     [ HttpReply 200
                         (JObj [ ("title", JStr "T");
                                 ("version", JObj [ ("number", JStr "3") ]) ]);
                       HttpReply 200 Sample.page ]))
    by (right; left; reflexivity).
  destruct (textual_version_number_is_appended_to
              Sample.NumberToString Sample.StringToNumber Sample.env
              (list reply) Sample.scripted
              (Sample.update [ ("pageId", JStr "12345");
                               ("content", JStr "<p>Hello</p>") ])
              [ HttpReply 200
                  (JObj [ ("title", JStr "T");
                          ("version", JObj [ ("number", JStr "3") ]) ]);
                HttpReply 200 Sample.page ]
              "12345"
              [ ("title", JStr "T");
                ("version", JObj [ ("number", JStr "3") ]) ]
              [ ("number", JStr "3") ] "3" put
              eq_refl eq_refl eq_refl eq_refl Hin eq_refl)
    as [updatePayload [Hbody Hnumber]].
  exists put, updatePayload.
  split; [ exact Hin | ].
  split; [ reflexivity | ].
  split; [ exact Hbody | exact Hnumber ].
Defined.

Lemma update_of_page_with_error_property :
  Sample.call (Sample.update [ ("pageId", JStr "12345");
                               ("content", JStr "<p>Hello</p>") ])
    [ HttpReply 200 (JObj [ ("title", JStr "T");
                            ("error", JStr "macro failed to render");
                            ("version", JObj [ ("number", JNum 3) ]) ]);
      HttpReply 200 Sample.page ]
  = (Returned
       (Server.text_content Sample.NumberToString
          (JObj [ ("error",
                   JStr "Failed to get current page: macro failed to render") ])),
     [ page_request Sample.env "12345" ],
     [ HttpReply 200 Sample.page ]).
Proof.
  apply (page_with_error_property_is_not_updated
           Sample.NumberToString Sample.StringToNumber Sample.env
           (list reply) Sample.scripted
           (Sample.update [ ("pageId", JStr "12345");
                            ("content", JStr "<p>Hello</p>") ])
           [ HttpReply 200 (JObj [ ("title", JStr "T");
                                   ("error", JStr "macro failed to render");
                                   ("version", JObj [ ("number", JNum 3) ]) ]);
             HttpReply 200 Sample.page ]
           "12345" "<p>Hello</p>"
           (JObj [ ("title", JStr "T");
                   ("error", JStr "macro failed to render");
                   ("version", JObj [ ("number", JNum 3) ]) ])).
  - reflexivity.
  - reflexivity.
  - discriminate.
  - reflexivity.
  - discriminate.
  - discriminate.
  - reflexivity.
  - reflexivity.
Defined.

(** The same with an [error] property that has no string: the TypeError of
    the template literal is caught and reported. *)
Example update_of_page_with_unrenderable_error :
  Sample.call (Sample.update [ ("pageId", JStr "12345");
                               ("content", JStr "<p>Hello</p>") ])
    [ HttpReply 200 (JObj [ ("error", Sample.stubborn) ]);
      HttpReply 200 Sample.page ]
  = (Returned
       (Server.text_content Sample.NumberToString
          (JObj [ ("error",
                   JStr "Cannot convert object to primitive value") ])),
     [ page_request Sample.env "12345" ],
     [ HttpReply 200 Sample.page ]).
Proof. reflexivity. Qed.

Lemma fetch_of_page_12345 :
  Sample.call (Sample.fetch [ ("pageId", JStr "12345") ])
    [ HttpReply 200 Sample.page ]
  = (Returned
       {| content :=
            [ {| type := "text";
                 text := JSON_stringify Sample.NumberToString Sample.page |} ] |},
     [ {| verb := GET;
          url := "https://example.atlassian.net/wiki/rest/api/content/12345?expand=body.storage,version";
          headers := getAuthHeaders Sample.env;
          params := None;
          body := None |} ],
     []).
Proof.
  apply (page_fetch_returns_the_body
           Sample.NumberToString Sample.StringToNumber Sample.env
           (list reply) Sample.scripted
           (Sample.fetch [ ("pageId", JStr "12345") ])
           [ HttpReply 200 Sample.page ] "12345" Sample.page).
  - reflexivity.
  - reflexivity.
  - discriminate.
  - reflexivity.
Defined.

Lemma update_answered_with_new_version :
  Http.outcome (list reply) Sample.scripted
    (Sample.callTool (Sample.update [ ("pageId", JStr "12345");
                                      ("content", JStr "<p>Hello</p>") ]))
    [ HttpReply 200 Sample.page;
      HttpReply 200 (JObj [ ("id", JStr "12345");
                            ("version", JObj [ ("number", JNum 4) ]) ]) ]
  = Returned
      {| content :=
           [ {| type := "text";
                text := JSON_stringify Sample.NumberToString
                          (JObj [ ("id", JStr "12345");
                                  ("version",
                                   JObj [ ("number", JNum 4) ]) ]) |} ] |}.
Proof.
  apply (update_returns_the_put_response
           Sample.NumberToString Sample.StringToNumber Sample.env
           (list reply) Sample.scripted
           (Sample.update [ ("pageId", JStr "12345");
                            ("content", JStr "<p>Hello</p>") ])
           [ HttpReply 200 Sample.page;
             HttpReply 200 (JObj [ ("id", JStr "12345");
                                   ("version", JObj [ ("number", JNum 4) ]) ]) ]
           (page_request Sample.env "12345")
           (update_request Sample.env "12345"
              (payload "12345" "<p>Hello</p>" None Sample.page (JNum 4)))).
  - reflexivity.
  - reflexivity.
Defined.

(** *** Credentials, envelope and the earlier handler *)

Section Surroundings.

Variable NumberToString : float -> string.
Variable StringToNumber : string -> float.
Variable env : Env.

Abbreviation callTool := (Server.callTool NumberToString StringToNumber env).
Abbreviation text_content := (Server.text_content NumberToString).
Abbreviation pageId_of := (Reading.pageId_of NumberToString).
Abbreviation content_of := (Reading.content_of NumberToString).
Abbreviation title_of := (Reading.title_of NumberToString).
Abbreviation cql_of := (Reading.cql_of NumberToString).
Abbreviation limit_of := (Reading.limit_of NumberToString StringToNumber).

(** X13.  The Authorization header is "Basic " followed by a base64 text
    that decodes to [mail:key], so two environments get the same headers
    exactly when their mail and key, joined by a colon, read the same; an
    unset variable counts as the text "undefined". *)
Theorem authorization_header_holds_the_credentials (env' : Env) :
  (exists h,
      getAuthHeaders env
      = [ ("Authorization", "Basic " ++ h);
          ("Content-Type", "application/json") ]
      /\ Base64.decode h
         = Some (interpolate (CONFLUENCE_API_MAIL env) ++ ":"
                 ++ interpolate (CONFLUENCE_API_KEY env)))
  /\ (getAuthHeaders env = getAuthHeaders env'
      <-> interpolate (CONFLUENCE_API_MAIL env) ++ ":"
          ++ interpolate (CONFLUENCE_API_KEY env)
          = interpolate (CONFLUENCE_API_MAIL env') ++ ":"
            ++ interpolate (CONFLUENCE_API_KEY env')).
Proof.
  split.
  - eexists; split; [ reflexivity | apply Base64Facts.decode_base64 ].
  - unfold getAuthHeaders. split.
    + intro H. injection H as H.
      apply Base64Facts.base64_injective, H.
    + intros ->. reflexivity.
Qed.

(** [JSON.stringify] has no text for [undefined] only. *)
Lemma JSON_stringify_undefined (v : value) :
  JSON_stringify NumberToString v = None <-> v = JUndefined.
Proof.
  unfold JSON_stringify.
  destruct v as [ | | [ | ] | x | s | [ | e elems ] | props ]; simpl;
    split; intro H; try reflexivity; try discriminate H.
  destruct (flat_map _ props); discriminate H.
Qed.

Variable W : Type.
Variable respond : W -> HttpRequest -> reply * W.

Abbreviation sent := (Http.sent W respond).
Abbreviation outcome := (Http.outcome W respond).
Abbreviation run := (Http.run W respond).

(** X14.  Whatever an invocation returns is an envelope of exactly one
    content item, of type "text", holding the serialization of one value;
    the text is missing only when that value is [undefined]. *)
Theorem result_is_one_text_item
  (request : CallToolRequest) (w : W) (res : CallToolResult) :
  outcome (callTool request) w = Returned res ->
  exists v,
    content res
    = [ {| type := "text"; text := JSON_stringify NumberToString v |} ]
    /\ (JSON_stringify NumberToString v = None <-> v = JUndefined).
Proof.
  assert (Hitem : forall v res',
             Returned (text_content v) = Returned res' ->
             exists v',
               content res'
               = [ {| type := "text";
                      text := JSON_stringify NumberToString v' |} ]
               /\ (JSON_stringify NumberToString v' = None
                   <-> v' = JUndefined)).
  { intros v res' H. injection H as <-.
    exists v. split; [ reflexivity | apply JSON_stringify_undefined ]. }
  unfold Http.outcome.
  destruct (tool_cases request) as [E | [E | [E | Hnot]]].
  - rewrite (run_search_cases _ _ _ _ _ _ _ E).
    destruct (cql_of request) as [cql | ]; [ | discriminate ].
    destruct (limit_of request) as [limit | ]; [ | discriminate ].
    destruct (String.eqb cql ""); [ discriminate | apply Hitem ].
  - rewrite (run_page_cases _ _ _ _ _ _ _ E).
    destruct (pageId_of request) as [pageId | ]; [ | discriminate ].
    destruct (String.eqb pageId ""); [ discriminate | apply Hitem ].
  - rewrite (run_update_cases _ _ _ _ _ _ _ E).
    destruct (pageId_of request) as [pageId | ]; [ | discriminate ].
    destruct (content_of request) as [content | ]; [ | discriminate ].
    destruct (title_of request) as [title | ]; [ | discriminate ].
    destruct (String.eqb pageId ""); [ discriminate | ].
    destruct (String.eqb content ""); [ discriminate | ].
    cbv zeta. destruct (Reading.between _ _ _ _ _ _); apply Hitem.
  - rewrite (run_unknown _ _ _ _ _ _ _ Hnot). discriminate.
Qed.

Variable W' : Type.
Variable respond' : W' -> HttpRequest -> reply * W'.

(** The earlier handler on its two tools. *)
Lemma run_earlier_search (request : CallToolRequest) (w : W') :
  tool request = "execute_cql_search" ->
  Http.run W' respond'
    (Legacy.callTool NumberToString StringToNumber env request) w
  = match cql_of request, limit_of request with
    | Some cql, Some limit =>
        if String.eqb cql ""
        then (Thrown (Error "CQL query is required"), [], w)
        else
          let get := Legacy.search_request env cql limit in
          (Returned (text_content (answer (fst (respond' w get)))),
           [get], snd (respond' w get))
    | _, _ => (Thrown conversion_error, [], w)
    end.
Proof.
  intro E. unfold Legacy.callTool. rewrite E.
  change (String.eqb "execute_cql_search" "execute_cql_search") with true.
  cbv iota. fold (cql_of request). fold (limit_of request).
  destruct (cql_of request) as [cql | ]; [ | reflexivity ].
  destruct (limit_of request) as [limit | ]; [ | reflexivity ].
  cbn [convert bind]. rewrite not_truthy_string.
  destruct (String.eqb cql ""); [ reflexivity | ].
  unfold Legacy.executeCQL. rewrite run_bind, run_single. reflexivity.
Qed.

Lemma run_earlier_page (request : CallToolRequest) (w : W') :
  tool request = "get_page_content" ->
  Http.run W' respond'
    (Legacy.callTool NumberToString StringToNumber env request) w
  = match pageId_of request with
    | Some pageId =>
        if String.eqb pageId ""
        then (Thrown (Error "Page ID is required"), [], w)
        else
          let get := Legacy.page_request env pageId in
          (Returned (text_content (answer (fst (respond' w get)))),
           [get], snd (respond' w get))
    | None => (Thrown conversion_error, [], w)
    end.
Proof.
  intro E. unfold Legacy.callTool. rewrite E.
  change (String.eqb "get_page_content" "execute_cql_search") with false.
  change (String.eqb "get_page_content" "get_page_content") with true.
  cbv iota. fold (pageId_of request).
  destruct (pageId_of request) as [pageId | ]; [ | reflexivity ].
  cbn [convert bind]. rewrite not_truthy_string.
  destruct (String.eqb pageId ""); [ reflexivity | ].
  unfold Legacy.getPageContent. rewrite run_bind, run_single. reflexivity.
Qed.

(** X15.  Every tool of the earlier registry is in the present one,
    unchanged.  The earlier handler does not know update_page_content.  On
    every other request it behaves as the present one does: the same
    conversions and validation, requests that differ from the present ones
    in their URL only (no "/wiki" in the path, no [version] in the page's
    [expand]), and, when the remote answers the old paths as it answers the
    new, the same result. *)
Theorem earlier_handler_agrees (request : CallToolRequest) (w : W) (w' : W') :
  Forall (fun d => In d listTools) Legacy.listTools
  /\ (tool request = "update_page_content" ->
      Legacy.callTool NumberToString StringToNumber env request
      = Throw (Error "Unknown tool"))
  /\ (tool request <> "update_page_content" ->
      Forall2 (fun old new =>
                 verb old = verb new /\ headers old = headers new
                 /\ params old = params new /\ body old = body new
                 /\ ((url old
                      = interpolate (CONFLUENCE_URL env)
                        ++ "/rest/api/content/search"
                      /\ url new
                         = interpolate (CONFLUENCE_URL env)
                           ++ "/wiki/rest/api/content/search")
                     \/ exists pageId,
                          pageId_of request = Some pageId
                          /\ url old
                             = interpolate (CONFLUENCE_URL env)
                               ++ "/rest/api/content/" ++ pageId
                               ++ "?expand=body.storage"
                          /\ url new
                             = interpolate (CONFLUENCE_URL env)
                               ++ "/wiki/rest/api/content/" ++ pageId
                               ++ "?expand=body.storage,version"))
        (Http.sent W' respond'
           (Legacy.callTool NumberToString StringToNumber env request) w')
        (sent (callTool request) w)
      /\ ((forall cql limit,
             cql_of request = Some cql -> limit_of request = Some limit ->
             fst (respond' w' (Legacy.search_request env cql limit))
             = fst (respond w (search_request env cql limit))) ->
          (forall pageId,
             pageId_of request = Some pageId ->
             fst (respond' w' (Legacy.page_request env pageId))
             = fst (respond w (page_request env pageId))) ->
          Http.outcome W' respond'
            (Legacy.callTool NumberToString StringToNumber env request) w'
          = outcome (callTool request) w)).
Proof.
  split; [ | split ].
  - apply Forall_cons; [ left; reflexivity | ].
    apply Forall_cons; [ right; left; reflexivity | apply Forall_nil ].
  - intro E. unfold Legacy.callTool. rewrite E. reflexivity.
  - intro Hother.
    unfold Http.sent, Http.outcome.
    destruct (tool_cases request) as [E | [E | [E | Hnot]]].
    + rewrite (run_earlier_search _ _ E).
      rewrite (run_search_cases _ _ _ _ _ _ _ E).
      destruct (cql_of request) as [cql | ];
        [ | split; [ constructor | reflexivity ] ].
      destruct (limit_of request) as [limit | ];
        [ | split; [ constructor | reflexivity ] ].
      destruct (String.eqb cql "");
        [ split; [ constructor | reflexivity ] | ].
      simpl. split.
      * constructor; [ | constructor ].
        repeat (split; [ reflexivity | ]).
        left. split; reflexivity.
      * intros Hsearch _. rewrite (Hsearch cql limit eq_refl eq_refl).
        reflexivity.
    + rewrite (run_earlier_page _ _ E).
      rewrite (run_page_cases _ _ _ _ _ _ _ E).
      destruct (pageId_of request) as [pageId | ];
        [ | split; [ constructor | reflexivity ] ].
      destruct (String.eqb pageId "");
        [ split; [ constructor | reflexivity ] | ].
      simpl. split.
      * constructor; [ | constructor ].
        repeat (split; [ reflexivity | ]).
        right. exists pageId. repeat split.
      * intros _ Hpage. rewrite (Hpage pageId eq_refl). reflexivity.
    + contradiction.
    + rewrite (run_unknown _ _ _ _ _ _ _ Hnot).
      assert (Hold : Legacy.callTool NumberToString StringToNumber env request
                     = Throw (Error "Unknown tool")).
      { unfold Legacy.callTool.
        destruct (String.eqb_spec (tool request) "execute_cql_search")
          as [E | _].
        { exfalso; apply Hnot; rewrite E; simpl; auto. }
        destruct (String.eqb_spec (tool request) "get_page_content")
          as [E | _].
        { exfalso; apply Hnot; rewrite E; simpl; auto. }
        reflexivity. }
      rewrite Hold. simpl. split; [ constructor | reflexivity ].
Qed.

End Surroundings.

Lemma fetch_result_item :
  exists v,
    content {| content :=
                 [ {| type := "text";
                      text := JSON_stringify Sample.NumberToString
                                Sample.page |} ] |}
    = [ {| type := "text"; text := JSON_stringify Sample.NumberToString v |} ]
    /\ (JSON_stringify Sample.NumberToString v = None <-> v = JUndefined).
Proof.
  apply (result_is_one_text_item
           Sample.NumberToString Sample.StringToNumber Sample.env
           (list reply) Sample.scripted
           (Sample.fetch [ ("pageId", JStr "12345") ])
           [ HttpReply 200 Sample.page ]).
  reflexivity.
Defined.
